(** * Prior specification classes of BayesBoom

    A shallow embedding of [Interfaces/python/R/BayesBoom/R/bayes.py]:
    the five prior classes [SdPrior], [NormalPrior], [Ar1CoefficientPrior],
    [MvnPrior] and [UniformPrior], over a small model of the Python values
    and built-ins they use.

    Python floats are binary64 numbers and are modelled by Rocq's primitive
    floats; Python ints are unbounded and are modelled by [Z].  An instance
    is its class together with its attribute dictionary ([__dict__]), a
    finite map from attribute names to values. *)

From Stdlib Require Import ZArith Lia String PrimFloat SpecFloat FloatOps.
From stdpp Require Import base option list gmap strings.

Local Open Scope Z_scope.

(** ** Values *)

(** A numpy array: its [shape] tuple and its elements in row-major order. *)
Record ndarray := NdArray { shape : list nat; data : list float }.

Inductive value :=
  | VNone
  | VBool (b : bool)
  | VInt (n : Z)
  | VFloat (x : float)
  | VArray (a : ndarray).

(** ** Exceptions and fallible computations *)

(** [Unmodelled] is not a Python exception: it marks an operation whose
    outcome is decided by numpy's operator dispatch on an array operand,
    which this development does not describe. *)
Inductive exn :=
  | TypeError
  | OverflowError
  | AttributeError (attr : string)
  | IndexError
  | Exception (msg : string)
  | Unmodelled.

Inductive result (A : Type) :=
  | Ok (a : A)
  | Raise (e : exn).
Arguments Ok {A} a.
Arguments Raise {A} e.

Global Instance result_ret : MRet result := @Ok.
Global Instance result_bind : MBind result := λ A B f m,
  match m with
  | Ok a => f a
  | Raise e => Raise e
  end.

Definition succeeds {A} (r : result A) : Prop := ∃ a, r = Ok a.

(** ** Numbers by exact value *)

(** The exact value of a number: not-a-number, an infinity, or the dyadic
    rational [m * 2^e]. *)
Inductive xnum :=
  | XNaN
  | XInf (negative : bool)
  | XFin (m e : Z).

Definition float_exact (x : float) : xnum :=
  match Prim2SF x with
  | S754_nan => XNaN
  | S754_infinity s => XInf s
  | S754_zero _ => XFin 0 0
  | S754_finite s m e => XFin (cond_Zopp s (Zpos m)) e
  end.

(** [bool] is a subclass of [int]: [True] is 1 and [False] is 0. *)
Definition num_exact (v : value) : option xnum :=
  match v with
  | VBool b => Some (XFin (Z.b2z b) 0)
  | VInt n => Some (XFin n 0)
  | VFloat x => Some (float_exact x)
  | VNone | VArray _ => None
  end.

(** Comparison of exact values; [None] when an operand is not-a-number. *)
Definition xcompare (a b : xnum) : option comparison :=
  match a, b with
  | XNaN, _ | _, XNaN => None
  | XInf s1, XInf s2 =>
      Some (if s1 then (if s2 then Eq else Lt) else (if s2 then Gt else Eq))
  | XInf s, XFin _ _ => Some (if s then Lt else Gt)
  | XFin _ _, XInf s => Some (if s then Gt else Lt)
  | XFin m1 e1, XFin m2 e2 =>
      let e := Z.min e1 e2 in
      Some (m1 * 2 ^ (e1 - e) ?= m2 * 2 ^ (e2 - e))
  end.

Definition is_array (v : value) : bool :=
  match v with VArray _ => true | _ => false end.

(** Python compares ints and floats, in any mix, by their exact values.
    Ordering against [None] raises [TypeError]. *)
Definition num_compare (a b : value) : result (option comparison) :=
  if is_array a || is_array b then Raise Unmodelled
  else match num_exact a, num_exact b with
       | Some x, Some y => Ok (xcompare x y)
       | _, _ => Raise TypeError
       end.

(** [a < b] *)
Definition py_lt (a b : value) : result value :=
  c ← num_compare a b;
  Ok (VBool match c with Some Lt => true | _ => false end).

(** [a <= b] *)
Definition py_le (a b : value) : result value :=
  c ← num_compare a b;
  Ok (VBool match c with Some Lt | Some Eq => true | _ => false end).

(** [a > b] *)
Definition py_gt (a b : value) : result value :=
  c ← num_compare a b;
  Ok (VBool match c with Some Gt => true | _ => false end).

(** [a == b]: never raises on scalars; [None] equals only [None]. *)
Definition py_eq (a b : value) : result value :=
  if is_array a || is_array b then Raise Unmodelled
  else match num_exact a, num_exact b with
       | Some x, Some y =>
           Ok (VBool match xcompare x y with Some Eq => true | _ => false end)
       | None, None => Ok (VBool true)
       | _, _ => Ok (VBool false)
       end.

(** ** Built-in conversions *)

(** [x is None] *)
Definition is_none (v : value) : bool :=
  match v with VNone => true | _ => false end.

(** Conversion of an int to the nearest binary64 number (ties to even);
    [OverflowError] when the rounded value is out of range. *)
Definition float_of_Z (n : Z) : result float :=
  match binary_normalize prec emax n 0 false with
  | S754_infinity _ => Raise OverflowError
  | sf => Ok (SF2Prim sf)
  end.

(** [float(v)] *)
Definition py_float (v : value) : result float :=
  match v with
  | VNone => Raise TypeError
  | VBool b => Ok (if b then 1%float else 0%float)
  | VInt n => float_of_Z n
  | VFloat x => Ok x
  | VArray _ => Raise Unmodelled
  end.

(** [bool(v)]; a float is false exactly when it compares equal to 0.0. *)
Definition py_bool (v : value) : result bool :=
  match v with
  | VNone => Ok false
  | VBool b => Ok b
  | VInt n => Ok (negb (n =? 0))
  | VFloat x => Ok (negb (x =? 0)%float)
  | VArray _ => Raise Unmodelled
  end.

(** [isinstance(v, float)] *)
Definition is_float (v : value) : bool :=
  match v with VFloat _ => true | _ => false end.

(** An int, bool or float. *)
Definition is_numeric (v : value) : bool :=
  match v with VBool _ | VInt _ | VFloat _ => true | _ => false end.

(** ** Arithmetic *)

Section Arithmetic.
(** The C library's [pow] on doubles, which CPython calls for [**] on
    floats once the special cases are dealt with. *)
Variable libm_pow : float → float → float.

(** [x ** 2] for a float [x]: not-a-number, infinities, zeros and ±1 are
    answered directly, everything else by [pow(|x|, 2.0)], and an
    infinite result of [pow] is reported as [OverflowError]. *)
Definition float_pow2 (x : float) : result float :=
  if is_nan x then Ok x
  else if is_infinity x then Ok (abs x)
  else if (x =? 0)%float then Ok 0%float
  else
    let ax := if (x <? 0)%float then (- x)%float else x in
    if (ax =? 1)%float then Ok 1%float
    else
      let r := libm_pow ax 2 in
      if is_infinity r then Raise OverflowError else Ok r.

(** [v ** 2] *)
Definition py_pow2 (v : value) : result value :=
  match v with
  | VNone => Raise TypeError
  | VBool b => Ok (VInt (Z.b2z b ^ 2))
  | VInt n => Ok (VInt (n ^ 2))
  | VFloat x => r ← float_pow2 x; Ok (VFloat r)
  | VArray _ => Raise Unmodelled
  end.
End Arithmetic.

Definition as_int (v : value) : option Z :=
  match v with
  | VBool b => Some (Z.b2z b)
  | VInt n => Some n
  | _ => None
  end.

(** [a * b]: exact on ints; on floats the binary64 product; an int operand
    next to a float is converted with [float_of_Z] first. *)
Definition py_mul (a b : value) : result value :=
  if is_array a || is_array b then Raise Unmodelled
  else match as_int a, as_int b with
       | Some m, Some n => Ok (VInt (m * n))
       | _, _ =>
           if is_none a || is_none b then Raise TypeError
           else
             x ← py_float a;
             y ← py_float b;
             Ok (VFloat (x * y)%float)
       end.

(** ** Instances *)

Inductive pyclass :=
  | cSdPrior
  | cNormalPrior
  | cAr1CoefficientPrior
  | cMvnPrior
  | cUniformPrior.

(** An instance: its class and its attribute dictionary [__dict__]. *)
Record object := Object { ob_type : pyclass; ob_dict : gmap string value }.

(** [cls.__new__(cls)]: an instance with no attributes yet. *)
Definition new (c : pyclass) : object := Object c ∅.

(** [self.name = v] *)
Definition setattr (self : object) (name : string) (v : value) : object :=
  Object (ob_type self) (<[name := v]> (ob_dict self)).

(** [self.name] for a data attribute.  None of the names read in this
    module is defined on a class, so the value comes from the instance
    dictionary, and a name absent from it raises [AttributeError]. *)
Definition getattr (self : object) (name : string) : result value :=
  match ob_dict self !! name with
  | Some v => Ok v
  | None => Raise (AttributeError name)
  end.

(** ** The external library *)

(** [BayesBoom.boom] is a native extension outside this module.  A call
    into it is recorded as the name called and the arguments passed, in
    order; an argument is either a stored value or a stored value wrapped
    by one of the library's converters ([boom.Vector], [boom.SpdMatrix]). *)
Inductive boom_arg :=
  | BValue (v : value)
  | BConvert (converter : string) (v : value).

Record boom_expr := BCall { callee : string; args : list boom_arg }.

(** ** SdPrior *)

Module SdPrior.
Definition default_initial_value : value := VNone.
Definition default_fixed : value := VBool false.
Definition default_upper_limit : value := VFloat infinity.

Definition __init__
    (sigma_guess sample_size initial_value fixed upper_limit : value)
    : result object :=
  let self := new cSdPrior in
  sg ← py_float sigma_guess;
  let self := setattr self "sigma_guess" (VFloat sg) in
  ss ← py_float sample_size;
  let self := setattr self "sample_size" (VFloat ss) in
  let initial_value :=
    if is_none initial_value then sigma_guess else initial_value in
  iv ← py_float initial_value;
  let self := setattr self "initial_value" (VFloat iv) in
  fx ← py_bool fixed;
  let self := setattr self "fixed" (VBool fx) in
  ul ← py_float upper_limit;
  let self := setattr self "upper_limit" (VFloat ul) in
  Ok self.

Section Accessors.
Variable libm_pow : float → float → float.

Definition sum_of_squares (self : object) : result value :=
  sg ← getattr self "sigma_guess";
  sq ← py_pow2 libm_pow sg;
  ss ← getattr self "sample_size";
  py_mul sq ss.
End Accessors.

Definition create_chisq_model (self : object) : result boom_expr :=
  ss ← getattr self "sample_size";
  sg ← getattr self "sigma_guess";
  Ok (BCall "ChisqModel" [BValue ss; BValue sg]).

Definition boom (self : object) : result boom_expr :=
  ss ← getattr self "sample_size";
  sg ← getattr self "sigma_guess";
  Ok (BCall "ChisqModel" [BValue ss; BValue sg]).

Definition __getstate__ (self : object) : gmap string value :=
  ob_dict self.

Definition __setstate__ (self : object) (payload : gmap string value)
    : object :=
  Object (ob_type self) payload.
End SdPrior.

(** ** NormalPrior *)

Module NormalPrior.
Definition default_mu : value := VFloat 0.
Definition default_sigma : value := VFloat 1.
Definition default_initial_value : value := VNone.

Definition __init__ (mu sigma initial_value : value) : result object :=
  let self := new cNormalPrior in
  m ← py_float mu;
  let self := setattr self "mu" (VFloat m) in
  s ← py_float sigma;
  let self := setattr self "sigma" (VFloat s) in
  if is_none initial_value then
    Ok (setattr self "initial_value" mu)
  else
    iv ← py_float initial_value;
    Ok (setattr self "initial_value" (VFloat iv)).

Definition mean (self : object) : result value := getattr self "mu".

Definition sd (self : object) : result value := getattr self "sigma".

Section Accessors.
Variable libm_pow : float → float → float.

Definition variance (self : object) : result value :=
  s ← getattr self "sigma";
  py_pow2 libm_pow s.
End Accessors.

Definition boom (self : object) : result boom_expr :=
  m ← getattr self "mu";
  s ← getattr self "sigma";
  Ok (BCall "GaussianModel" [BValue m; BValue s]).

Definition __getstate__ (self : object) : gmap string value :=
  ob_dict self.

Definition __setstate__ (self : object) (payload : gmap string value)
    : object :=
  Object (ob_type self) payload.
End NormalPrior.

(** ** Ar1CoefficientPrior *)

Module Ar1CoefficientPrior.
Definition default_mu : value := VFloat 0.
Definition default_sigma : value := VFloat 1.
Definition default_initial_value : value := VNone.

Definition __init__
    (mu sigma force_stationary force_positive initial_value : value)
    : result object :=
  let self := new cAr1CoefficientPrior in
  let self := setattr self "mu" mu in
  let self := setattr self "sigma" sigma in
  let self := setattr self "force_stationary" force_stationary in
  let self := setattr self "force_positive" force_positive in
  let self := setattr self "initial_value" initial_value in
  let self :=
    if is_none initial_value then setattr self "initial_value" mu
    else self in
  Ok self.

Definition boom (self : object) : result boom_expr :=
  m ← getattr self "mu";
  s ← getattr self "sigma";
  Ok (BCall "GaussianModel" [BValue m; BValue s]).

Definition __getstate__ (self : object) : gmap string value :=
  ob_dict self.

Definition __setstate__ (self : object) (payload : gmap string value)
    : object :=
  Object (ob_type self) payload.
End Ar1CoefficientPrior.

(** ** MvnPrior *)

(** [v.shape]; only arrays have the attribute. *)
Definition get_shape (v : value) : result (list nat) :=
  match v with
  | VArray a => Ok (shape a)
  | _ => Raise (AttributeError "shape")
  end.

(** [t[i]] on a tuple. *)
Definition tuple_item (t : list nat) (i : nat) : result nat :=
  match t !! i with
  | Some d => Ok d
  | None => Raise IndexError
  end.

(** [len(v)]: the first dimension of an array; a 0-d array and the scalars
    have no length. *)
Definition py_len (v : value) : result nat :=
  match v with
  | VArray a =>
      match shape a with
      | d :: _ => Ok d
      | [] => Raise TypeError
      end
  | _ => Raise TypeError
  end.

Module MvnPrior.
Definition __init__ (mu Sigma : value) : result object :=
  mu_shape ← get_shape mu;
  if decide (length mu_shape ≠ 1%nat) then
    Raise (Exception "mu must be a vector.")
  else
  Sigma_shape ← get_shape Sigma;
  if decide (length Sigma_shape ≠ 2%nat) then
    Raise (Exception "Sigma must be a matrix.")
  else
  rows ← tuple_item Sigma_shape 0;
  cols ← tuple_item Sigma_shape 1;
  if decide (rows ≠ cols) then
    Raise (Exception "Sigma must be symmetric")
  else
  rows ← tuple_item Sigma_shape 0;
  n ← py_len mu;
  if decide (rows ≠ n) then
    Raise (Exception "mu and Sigma must be the same dimension.")
  else
  let self := new cMvnPrior in
  let self := setattr self "_mu" mu in
  let self := setattr self "_Sigma" Sigma in
  Ok self.

Definition mu (self : object) : result value := getattr self "_mu".

Definition Sigma (self : object) : result value := getattr self "_Sigma".

Definition boom (self : object) : result boom_expr :=
  m ← getattr self "_mu";
  S ← getattr self "_Sigma";
  Ok (BCall "MvnModel" [BConvert "Vector" m; BConvert "SpdMatrix" S]).
End MvnPrior.

(** ** UniformPrior *)

Module UniformPrior.
Definition __init__ (lo hi : value) : result object :=
  let self := new cUniformPrior in
  c ← py_lt hi lo;
  swap ← py_bool c;
  let '(lo, hi) := if (swap : bool) then (hi, lo) else (lo, hi) in
  let self := setattr self "_lo" lo in
  let self := setattr self "_hi" hi in
  Ok self.

Definition boom (self : object) : result boom_expr :=
  lo ← getattr self "_lo";
  hi ← getattr self "_hi";
  Ok (BCall "UniformModel" [BValue lo; BValue hi]).
End UniformPrior.

(** ** Persistence *)

(** What [object] provides to a class without hooks of its own: the state
    is the instance dictionary, and restoring updates the dictionary of
    the target with the state. *)
Definition object_getstate (self : object) : gmap string value :=
  ob_dict self.

Definition object_setstate (self : object) (state : gmap string value)
    : object :=
  Object (ob_type self) (state ∪ ob_dict self).

(** The state captured for an instance: through the [__getstate__] of its
    class where the class defines one. *)
Definition serialize (x : object) : gmap string value :=
  match ob_type x with
  | cSdPrior => SdPrior.__getstate__ x
  | cNormalPrior => NormalPrior.__getstate__ x
  | cAr1CoefficientPrior => Ar1CoefficientPrior.__getstate__ x
  | cMvnPrior | cUniformPrior => object_getstate x
  end.

(** Rebuilding an instance of class [c] from a state: a bare instance is
    allocated without running [__init__], then given the state through the
    [__setstate__] of its class where the class defines one. *)
Definition restore (c : pyclass) (state : gmap string value) : object :=
  let obj := new c in
  match c with
  | cSdPrior => SdPrior.__setstate__ obj state
  | cNormalPrior => NormalPrior.__setstate__ obj state
  | cAr1CoefficientPrior => Ar1CoefficientPrior.__setstate__ obj state
  | cMvnPrior | cUniformPrior => object_setstate obj state
  end.

(** ** Vocabulary of the specification *)

(** The four shape requirements on [(mu, Sigma)] in the order in which the
    specification lists them, each with the message of its failure. *)
Definition shape_checks (mu Sigma : ndarray) : list (bool * string) :=
  [ (bool_decide (length (shape mu) = 1%nat),
     "mu must be a vector.");
    (bool_decide (length (shape Sigma) = 2%nat),
     "Sigma must be a matrix.");
    (bool_decide (shape Sigma !! 0%nat = shape Sigma !! 1%nat),
     "Sigma must be symmetric");
    (bool_decide (shape Sigma !! 0%nat = head (shape mu)),
     "mu and Sigma must be the same dimension.") ].

(** The message of the first requirement that does not hold, if any. *)
Fixpoint first_violation (checks : list (bool * string)) : option string :=
  match checks with
  | [] => None
  | (holds, msg) :: rest => if holds then first_violation rest else Some msg
  end.

(** [min(a, b)] and [max(a, b)]: the first argument unless the second is
    strictly smaller, respectively strictly larger. *)
Definition py_min (a b : value) : result value :=
  c ← py_lt b a;
  t ← py_bool c;
  Ok (if (t : bool) then b else a).

Definition py_max (a b : value) : result value :=
  c ← py_gt b a;
  t ← py_bool c;
  Ok (if (t : bool) then b else a).

(** A float that is not-a-number. *)
Definition is_nan_value (v : value) : bool :=
  match v with VFloat x => is_nan x | _ => false end.


(** A [pow] that squares by one multiplication, used to run the accessors
    on concrete inputs. *)
Definition pow_by_squaring (x y : float) : float := (x * x)%float.

(** Arrays of a given shape, filled with zeros. *)
Definition zeros (dims : list nat) : ndarray :=
  NdArray dims (replicate (foldr Nat.mul 1%nat dims) 0%float).

(** * Properties *)

(** ** The result monad *)

Lemma bind_inv {A B} (m : result A) (f : A → result B) (b : B) :
  (m ≫= f) = Ok b → ∃ a, m = Ok a ∧ f a = Ok b.
Proof. destruct m as [a|e]; [eauto | discriminate]. Qed.

(** ** MvnPrior *)

Lemma MvnPrior_not_vector (mu : ndarray) (Sigma : value) :
  length (shape mu) ≠ 1%nat →
  MvnPrior.__init__ (VArray mu) Sigma = Raise (Exception "mu must be a vector.").
Proof.
  intros Hmu. unfold MvnPrior.__init__. simpl.
  destruct (decide (length (shape mu) ≠ 1%nat)); [reflexivity | contradiction].
Qed.

Lemma MvnPrior_not_matrix (mu Sigma : ndarray) :
  length (shape mu) = 1%nat →
  length (shape Sigma) ≠ 2%nat →
  MvnPrior.__init__ (VArray mu) (VArray Sigma)
  = Raise (Exception "Sigma must be a matrix.").
Proof.
  intros Hmu HS. unfold MvnPrior.__init__. simpl.
  destruct (decide (length (shape mu) ≠ 1%nat)); [contradiction |].
  destruct (decide (length (shape Sigma) ≠ 2%nat)); [reflexivity | contradiction].
Qed.

Lemma MvnPrior_checked_shapes (n rows cols : nat) (dmu dS : list float) :
  MvnPrior.__init__ (VArray (NdArray [n] dmu)) (VArray (NdArray [rows; cols] dS))
  = if decide (rows ≠ cols) then Raise (Exception "Sigma must be symmetric")
    else if decide (rows ≠ n) then
      Raise (Exception "mu and Sigma must be the same dimension.")
    else Ok (Object cMvnPrior
               (<["_Sigma" := VArray (NdArray [rows; cols] dS)]>
                  (<["_mu" := VArray (NdArray [n] dmu)]> ∅))).
Proof.
  unfold MvnPrior.__init__. simpl.
  destruct (decide (rows ≠ cols)); [reflexivity |].
  destruct (decide (rows ≠ n)); reflexivity.
Qed.

Lemma length_one_inv {A} (l : list A) : length l = 1%nat → ∃ a, l = [a].
Proof. destruct l as [|a [|b l]]; simpl; intros; try discriminate; eauto. Qed.

Lemma length_two_inv {A} (l : list A) : length l = 2%nat → ∃ a b, l = [a; b].
Proof.
  destruct l as [|a [|b [|c l]]]; simpl; intros; try discriminate; eauto.
Qed.

Lemma MvnPrior_init_refines (mu Sigma : ndarray) :
  MvnPrior.__init__ (VArray mu) (VArray Sigma)
  = match first_violation (shape_checks mu Sigma) with
    | Some msg => Raise (Exception msg)
    | None =>
        Ok (Object cMvnPrior
              (<["_Sigma" := VArray Sigma]> (<["_mu" := VArray mu]> ∅)))
    end.
Proof.
  destruct mu as [smu dmu], Sigma as [sS dS].
  destruct (decide (length smu = 1%nat)) as [Hmu|Hmu].
  - destruct (length_one_inv _ Hmu) as [n ->].
    destruct (decide (length sS = 2%nat)) as [HS|HS].
    + destruct (length_two_inv _ HS) as (rows & cols & ->).
      rewrite MvnPrior_checked_shapes. unfold shape_checks. simpl.
      destruct (decide (rows ≠ cols)) as [Hrc|Hrc].
      * rewrite bool_decide_eq_false_2; [reflexivity | congruence].
      * apply dec_stable in Hrc. subst cols.
        rewrite (bool_decide_eq_true_2 (Some rows = Some rows)) by reflexivity.
        destruct (decide (rows ≠ n)) as [Hrn|Hrn].
        -- rewrite bool_decide_eq_false_2; [reflexivity | congruence].
        -- apply dec_stable in Hrn. subst n.
           rewrite bool_decide_eq_true_2; reflexivity.
    + rewrite MvnPrior_not_matrix by (simpl; assumption).
      unfold shape_checks. simpl.
      rewrite (bool_decide_eq_false_2 (length sS = 2%nat)) by assumption.
      reflexivity.
  - rewrite MvnPrior_not_vector by (simpl; assumption).
    unfold shape_checks. simpl.
    rewrite (bool_decide_eq_false_2 (length smu = 1%nat)) by assumption.
    reflexivity.
Qed.

Lemma first_violation_None (checks : list (bool * string)) :
  first_violation checks = None ↔ Forall (λ c, c.1 = true) checks.
Proof.
  induction checks as [|[holds msg] rest IH]; simpl.
  - split; [constructor | reflexivity].
  - destruct holds.
    + rewrite IH. split.
      * intros H. constructor; [reflexivity | assumption].
      * intros H. inversion H; assumption.
    + split; [discriminate |].
      intros H. inversion H as [|? ? Hhd]. discriminate Hhd.
Qed.

Lemma shape_checks_all (mu Sigma : ndarray) :
  Forall (λ c, c.1 = true) (shape_checks mu Sigma)
  ↔ ∃ n, shape mu = [n] ∧ shape Sigma = [n; n].
Proof.
  unfold shape_checks. split.
  - intros H.
    apply Forall_cons in H as [H1 H]. apply Forall_cons in H as [H2 H].
    apply Forall_cons in H as [H3 H]. apply Forall_cons in H as [H4 _].
    simpl in *.
    apply bool_decide_eq_true_1 in H1, H2, H3, H4.
    destruct (length_one_inv _ H1) as [n Hn].
    destruct (length_two_inv _ H2) as (rows & cols & HS).
    rewrite HS in H3, H4. rewrite Hn in H4. simpl in H3, H4.
    exists n. split; [assumption |]. congruence.
  - intros (n & -> & ->). simpl.
    repeat (apply Forall_cons; split); try apply Forall_nil_2;
      simpl; try reflexivity; apply bool_decide_eq_true_2; reflexivity.
Qed.

(** C2: on arrays the constructor of [MvnPrior] performs the four shape
    checks of the specification in their order: its outcome is the failure
    of the first requirement that does not hold (so nothing after it has
    any influence, and a [mu] that is not a vector is reported whatever
    [Sigma] is), the four failures carry pairwise different messages, and
    it succeeds, storing [mu] and [Sigma] unchanged, exactly when all four
    requirements hold. *)
Theorem MvnPrior_init_four_checks :
  (∀ mu Sigma : ndarray,
     MvnPrior.__init__ (VArray mu) (VArray Sigma)
     = match first_violation (shape_checks mu Sigma) with
       | Some msg => Raise (Exception msg)
       | None =>
           Ok (Object cMvnPrior
                 (<["_Sigma" := VArray Sigma]> (<["_mu" := VArray mu]> ∅)))
       end)
  ∧ (∀ mu Sigma : ndarray,
       (snd <$> shape_checks mu Sigma)
       = ["mu must be a vector."; "Sigma must be a matrix.";
          "Sigma must be symmetric";
          "mu and Sigma must be the same dimension."]
       ∧ NoDup (snd <$> shape_checks mu Sigma))
  ∧ (∀ (mu : ndarray) (Sigma : value),
       length (shape mu) ≠ 1%nat →
       MvnPrior.__init__ (VArray mu) Sigma
       = Raise (Exception "mu must be a vector."))
  ∧ (∀ mu Sigma : ndarray,
       length (shape mu) = 1%nat → length (shape Sigma) ≠ 2%nat →
       MvnPrior.__init__ (VArray mu) (VArray Sigma)
       = Raise (Exception "Sigma must be a matrix."))
  ∧ (∀ (n rows cols : nat) (dmu dS : list float),
       rows ≠ cols →
       MvnPrior.__init__ (VArray (NdArray [n] dmu))
                         (VArray (NdArray [rows; cols] dS))
       = Raise (Exception "Sigma must be symmetric"))
  ∧ (∀ (n rows : nat) (dmu dS : list float),
       rows ≠ n →
       MvnPrior.__init__ (VArray (NdArray [n] dmu))
                         (VArray (NdArray [rows; rows] dS))
       = Raise (Exception "mu and Sigma must be the same dimension."))
  ∧ (∀ mu Sigma : ndarray,
       succeeds (MvnPrior.__init__ (VArray mu) (VArray Sigma))
       ↔ Forall (λ c, c.1 = true) (shape_checks mu Sigma))
  ∧ (∀ (mu Sigma : ndarray) (o : object),
       MvnPrior.__init__ (VArray mu) (VArray Sigma) = Ok o →
       MvnPrior.mu o = Ok (VArray mu) ∧ MvnPrior.Sigma o = Ok (VArray Sigma)
       ∧ ∃ n, shape mu = [n] ∧ shape Sigma = [n; n]).
Proof.
  split; [exact MvnPrior_init_refines |].
  split.
  { intros mu Sigma. split; [reflexivity |].
    apply (bool_decide_unpack _). vm_compute. exact I. }
  split; [exact MvnPrior_not_vector |].
  split; [exact MvnPrior_not_matrix |].
  split.
  { intros n rows cols dmu dS Hrc. rewrite MvnPrior_checked_shapes.
    destruct (decide (rows ≠ cols)); [reflexivity | contradiction]. }
  split.
  { intros n rows dmu dS Hrn. rewrite MvnPrior_checked_shapes.
    destruct (decide (rows ≠ rows)); [congruence |].
    destruct (decide (rows ≠ n)); [reflexivity | contradiction]. }
  split.
  { intros mu Sigma. rewrite MvnPrior_init_refines, <- first_violation_None.
    destruct (first_violation (shape_checks mu Sigma)) as [msg|].
    - split; [intros [o Ho]; discriminate Ho | discriminate].
    - split; [reflexivity | intros _; eexists; reflexivity]. }
  intros mu Sigma o Ho.
  assert (Hall : Forall (λ c, c.1 = true) (shape_checks mu Sigma)).
  { apply first_violation_None. rewrite MvnPrior_init_refines in Ho.
    destruct (first_violation (shape_checks mu Sigma)); [discriminate | reflexivity]. }
  rewrite MvnPrior_init_refines in Ho.
  apply first_violation_None in Hall as Hnone. rewrite Hnone in Ho.
  injection Ho as <-.
  split; [reflexivity |]. split; [reflexivity |].
  apply shape_checks_all, Hall.
Qed.

Lemma MvnPrior_init_four_checks_witness :
  MvnPrior.__init__ (VArray (zeros [2; 2]%nat)) VNone
  = Raise (Exception "mu must be a vector.")
  ∧ MvnPrior.__init__ (VArray (zeros [3]%nat)) (VArray (zeros [3; 3; 3]%nat))
    = Raise (Exception "Sigma must be a matrix.")
  ∧ MvnPrior.__init__ (VArray (zeros [3]%nat)) (VArray (zeros [4; 4]%nat))
    = Raise (Exception "mu and Sigma must be the same dimension.")
  ∧ succeeds (MvnPrior.__init__ (VArray (zeros [3]%nat))
                                (VArray (zeros [3; 3]%nat))).
Proof.
  destruct MvnPrior_init_four_checks
    as (_ & _ & Hvec & Hmat & _ & Hdim & Hok & _).
  split; [apply Hvec; simpl; lia |].
  split; [apply Hmat; simpl; lia |].
  split; [apply (Hdim 3%nat 4%nat); lia |].
  apply Hok. apply shape_checks_all. exists 3%nat. split; reflexivity.
Defined.

(** C3 (as stated, refuted): with [mu] of shape (3,) and [Sigma] of shape
    (3,4) the failure raised is not the dimension-mismatch one. *)
Lemma MvnPrior_3_with_3x4_is_not_dimension_mismatch :
  MvnPrior.__init__ (VArray (zeros [3]%nat)) (VArray (zeros [3; 4]%nat))
  ≠ Raise (Exception "mu and Sigma must be the same dimension.").
Proof. vm_compute. discriminate. Qed.

(** C3 (amended): [mu] of shape (3,) with [Sigma] of shape (3,4) raises
    the non-square failure, because squareness is checked before the
    dimensions are compared; the dimension-mismatch failure is what a
    square [Sigma] of another size gives, such as (4,4) against (3,).  A
    [Sigma] of shape (2,3) next to any vector [mu] raises the non-square
    failure, and a [mu] of shape (2,2) raises the not-a-vector failure
    whatever [Sigma] is. *)
Theorem MvnPrior_shape_failures :
  (∀ dmu dS : list float,
     MvnPrior.__init__ (VArray (NdArray [3]%nat dmu))
                       (VArray (NdArray [3; 4]%nat dS))
     = Raise (Exception "Sigma must be symmetric"))
  ∧ (∀ dmu dS : list float,
       MvnPrior.__init__ (VArray (NdArray [3]%nat dmu))
                         (VArray (NdArray [4; 4]%nat dS))
       = Raise (Exception "mu and Sigma must be the same dimension."))
  ∧ (∀ (n : nat) (dmu dS : list float),
       MvnPrior.__init__ (VArray (NdArray [n] dmu))
                         (VArray (NdArray [2; 3]%nat dS))
       = Raise (Exception "Sigma must be symmetric"))
  ∧ (∀ (dmu : list float) (Sigma : value),
       MvnPrior.__init__ (VArray (NdArray [2; 2]%nat dmu)) Sigma
       = Raise (Exception "mu must be a vector.")).
Proof.
  split; [intros; rewrite MvnPrior_checked_shapes; reflexivity |].
  split; [intros; rewrite MvnPrior_checked_shapes; reflexivity |].
  split; [intros; rewrite MvnPrior_checked_shapes; reflexivity |].
  intros dmu Sigma. apply MvnPrior_not_vector. simpl. lia.
Qed.

(** ** Persistence *)

(** C7: for an instance [x] of any of the five classes, restoring the
    captured state of [x] into a bare instance of its class gives back an
    object with the class and every attribute of [x]; for the three classes
    with a [__setstate__] of their own this holds whatever instance the
    state is restored into. *)
Theorem serialize_restore_roundtrip :
  (∀ x : object, restore (ob_type x) (serialize x) = x)
  ∧ (∀ (x : object) (name : string),
       getattr (restore (ob_type x) (serialize x)) name = getattr x name)
  ∧ (∀ x y : object,
       ob_dict (SdPrior.__setstate__ y (SdPrior.__getstate__ x)) = ob_dict x
       ∧ ob_dict (NormalPrior.__setstate__ y (NormalPrior.__getstate__ x))
         = ob_dict x
       ∧ ob_dict (Ar1CoefficientPrior.__setstate__ y
                    (Ar1CoefficientPrior.__getstate__ x))
         = ob_dict x).
Proof.
  assert (Hround : ∀ x : object, restore (ob_type x) (serialize x) = x).
  { intros [c d]. unfold restore, serialize. destruct c; simpl;
      try reflexivity;
      unfold object_setstate, object_getstate; simpl;
      f_equal; apply (right_id_L ∅ (∪)). }
  split; [exact Hround |].
  split; [intros x name; rewrite Hround; reflexivity |].
  intros x y. repeat split.
Qed.

(** ** Ar1CoefficientPrior *)

Lemma Ar1CoefficientPrior_init_dict (mu sigma fs fp iv : value) :
  Ar1CoefficientPrior.__init__ mu sigma fs fp iv
  = Ok (Object cAr1CoefficientPrior
          (<["initial_value" := if is_none iv then mu else iv]>
             (<["force_positive" := fp]>
                (<["force_stationary" := fs]>
                   (<["sigma" := sigma]> (<["mu" := mu]> ∅)))))).
Proof.
  unfold Ar1CoefficientPrior.__init__, setattr, new. simpl.
  destruct (is_none iv); simpl; [| reflexivity].
  rewrite insert_insert_eq. reflexivity.
Qed.

(** C6: [boom] of an [Ar1CoefficientPrior] is the call of the external
    [GaussianModel] on exactly two arguments, the stored [mu] and [sigma];
    the stored [force_stationary] and [force_positive] do not reach it,
    whatever they are set to. *)
Theorem Ar1CoefficientPrior_boom_ignores_flags :
  (∀ mu sigma fs fp iv : value,
     ∃ o, Ar1CoefficientPrior.__init__ mu sigma fs fp iv = Ok o
          ∧ Ar1CoefficientPrior.boom o
            = Ok (BCall "GaussianModel" [BValue mu; BValue sigma]))
  ∧ (∀ (self : object) (m s : value),
       getattr self "mu" = Ok m → getattr self "sigma" = Ok s →
       Ar1CoefficientPrior.boom self
       = Ok (BCall "GaussianModel" [BValue m; BValue s]))
  ∧ (∀ (self : object) (fs fp : value),
       Ar1CoefficientPrior.boom
         (setattr (setattr self "force_stationary" fs) "force_positive" fp)
       = Ar1CoefficientPrior.boom self).
Proof.
  split.
  { intros mu sigma fs fp iv. eexists. split.
    - apply Ar1CoefficientPrior_init_dict.
    - reflexivity. }
  split.
  { intros self m s Hm Hs. unfold Ar1CoefficientPrior.boom.
    rewrite Hm, Hs. reflexivity. }
  intros [c d] fs fp.
  unfold Ar1CoefficientPrior.boom, getattr, setattr. simpl.
  rewrite !lookup_insert_ne by discriminate. reflexivity.
Qed.

Lemma Ar1CoefficientPrior_boom_ignores_flags_witness :
  Ar1CoefficientPrior.boom
    (Object cAr1CoefficientPrior
       (<["force_positive" := VBool true]>
          (<["sigma" := VFloat 2]> (<["mu" := VFloat 0.5]> ∅))))
  = Ok (BCall "GaussianModel" [BValue (VFloat 0.5); BValue (VFloat 2)]).
Proof.
  destruct Ar1CoefficientPrior_boom_ignores_flags as (_ & Hboom & _).
  apply Hboom; reflexivity.
Defined.

(** ** Conversions *)


(** ** SdPrior *)

Lemma SdPrior_init_spec (sg ss iv fx ul : value) (o : object) :
  SdPrior.__init__ sg ss iv fx ul = Ok o
  ↔ ∃ (a b c : float) (f : bool) (d : float),
      py_float sg = Ok a ∧ py_float ss = Ok b
      ∧ py_float (if is_none iv then sg else iv) = Ok c
      ∧ py_bool fx = Ok f ∧ py_float ul = Ok d
      ∧ o = Object cSdPrior
              (<["upper_limit" := VFloat d]>
                 (<["fixed" := VBool f]>
                    (<["initial_value" := VFloat c]>
                       (<["sample_size" := VFloat b]>
                          (<["sigma_guess" := VFloat a]> ∅))))).
Proof.
  unfold SdPrior.__init__, setattr, new. simpl. split.
  - intros H.
    apply bind_inv in H as (a & Ha & H). apply bind_inv in H as (b & Hb & H).
    apply bind_inv in H as (c & Hc & H). apply bind_inv in H as (f & Hf & H).
    apply bind_inv in H as (d & Hd & H). injection H as <-.
    exists a, b, c, f, d. repeat (split; [assumption |]). reflexivity.
  - intros (a & b & c & f & d & -> & -> & -> & -> & -> & ->). reflexivity.
Qed.

Lemma SdPrior_sum_of_squares_attrs
    (libm_pow : float → float → float) (self : object) (sg ss : value) :
  getattr self "sigma_guess" = Ok sg →
  getattr self "sample_size" = Ok ss →
  SdPrior.sum_of_squares libm_pow self
  = (sq ← py_pow2 libm_pow sg; py_mul sq ss).
Proof.
  intros Hsg Hss. unfold SdPrior.sum_of_squares. rewrite Hsg. simpl.
  destruct (py_pow2 libm_pow sg); simpl; [rewrite Hss |]; reflexivity.
Qed.

Lemma positive_float_classify (a : float) :
  py_lt (VInt 0) (VFloat a) = Ok (VBool true) →
  is_nan a = false ∧ (a =? 0)%float = false ∧ (a <? 0)%float = false.
Proof.
  unfold py_lt, num_compare. simpl. unfold float_exact, Prim2SF.
  destruct (is_nan a) eqn:Hnan; [discriminate |].
  destruct (is_zero a) eqn:Hzero; [discriminate |].
  assert (Hsign : get_sign a = (a <? 0)%float).
  { unfold get_sign. rewrite Hzero. reflexivity. }
  unfold is_zero in Hzero. rewrite Hsign.
  intros H. split; [reflexivity |]. split; [assumption |].
  destruct (a <? 0)%float; [exfalso | reflexivity].
  destruct (is_infinity a); [discriminate |].
  destruct (Z.frexp a) as [r ex].
  destruct (shr_fexp prec emax _ _ _) as [mrs e'].
  destruct (shr_m mrs) as [| m | m]; try discriminate.
  simpl in H.
  assert (Hpow : 0 < 2 ^ (e' - Z.min 0 e')) by (apply Z.pow_pos_nonneg; lia).
  destruct (- Z.pos m * 2 ^ (e' - Z.min 0 e')) as [| q | q] eqn:Hq;
    try discriminate H.
  pose proof (Pos2Z.is_pos m). pose proof (Pos2Z.is_pos q). nia.
Qed.

Lemma float_pow2_positive (libm_pow : float → float → float) (a : float) :
  py_lt (VInt 0) (VFloat a) = Ok (VBool true) →
  float_pow2 libm_pow a
  = if is_infinity a then Ok (abs a)
    else if (a =? 1)%float then Ok 1%float
    else if is_infinity (libm_pow a 2%float) then Raise OverflowError
    else Ok (libm_pow a 2%float).
Proof.
  intros Hpos.
  destruct (positive_float_classify a Hpos) as (Hnan & Hzero & Hneg).
  unfold float_pow2. rewrite Hnan, Hzero, Hneg. reflexivity.
Qed.

(** C1 (as stated, refuted): [SdPrior(sigma_guess=1, sample_size=2**53+1)]
    has positive arguments, yet its [sum_of_squares] is
    9007199254740992.0 whatever the C library's [pow] does, and that is
    not equal to [sigma_guess**2 * sample_size = 9007199254740993]. *)
Lemma SdPrior_sum_of_squares_rounds_int_argument :
  py_lt (VInt 0) (VInt 1) = Ok (VBool true)
  ∧ py_lt (VInt 0) (VInt (2 ^ 53 + 1)) = Ok (VBool true)
  ∧ ∃ x, SdPrior.__init__ (VInt 1) (VInt (2 ^ 53 + 1))
           SdPrior.default_initial_value SdPrior.default_fixed
           SdPrior.default_upper_limit = Ok x
         ∧ ∀ libm_pow : float → float → float,
             SdPrior.sum_of_squares libm_pow x
             = Ok (VFloat 9007199254740992)
             ∧ (sq ← py_pow2 libm_pow (VInt 1); py_mul sq (VInt (2 ^ 53 + 1)))
               = Ok (VInt 9007199254740993)
             ∧ py_eq (VFloat 9007199254740992) (VInt 9007199254740993)
               = Ok (VBool false).
Proof.
  split; [vm_compute; reflexivity |]. split; [vm_compute; reflexivity |].
  eexists. split; [vm_compute; reflexivity |].
  intros libm_pow. repeat split; vm_compute; reflexivity.
Qed.

(** C1 (amended): let [float()] turn [sigma_guess] and [sample_size] into
    the floats [a > 0] and [b > 0] (the arguments themselves when they are
    floats).  Then the [SdPrior] built from them exists, stores [a] and
    [b], and its [sum_of_squares] is [a**2 * b] in double arithmetic:
    [inf * b] for an infinite [a], [1.0 * b] when [a] is 1.0, otherwise
    [pow(a, 2.0) * b], and [OverflowError] when that [pow] is infinite.
    With a [pow] that is exact on 2.0 squared,
    [SdPrior(sigma_guess=2, sample_size=10).sum_of_squares] is 40.0. *)
Theorem SdPrior_sum_of_squares_double
    (libm_pow : float → float → float) (sigma_guess sample_size : value)
    (a b : float) :
  py_float sigma_guess = Ok a →
  py_float sample_size = Ok b →
  py_lt (VInt 0) (VFloat a) = Ok (VBool true) →
  py_lt (VInt 0) (VFloat b) = Ok (VBool true) →
  ∃ x, SdPrior.__init__ sigma_guess sample_size SdPrior.default_initial_value
         SdPrior.default_fixed SdPrior.default_upper_limit = Ok x
       ∧ getattr x "sigma_guess" = Ok (VFloat a)
       ∧ getattr x "sample_size" = Ok (VFloat b)
       ∧ (is_float sigma_guess = true → sigma_guess = VFloat a)
       ∧ (is_float sample_size = true → sample_size = VFloat b)
       ∧ SdPrior.sum_of_squares libm_pow x
         = (if is_infinity a then Ok (VFloat (abs a * b))
            else if (a =? 1)%float then Ok (VFloat (1 * b))
            else if is_infinity (libm_pow a 2%float) then Raise OverflowError
            else Ok (VFloat (libm_pow a 2%float * b)))
       ∧ (sigma_guess = VInt 2 → sample_size = VInt 10 →
          libm_pow 2%float 2%float = 4%float →
          SdPrior.sum_of_squares libm_pow x = Ok (VFloat 40)).
Proof.
  intros Ha Hb Hpos _. eexists. split.
  { apply SdPrior_init_spec. exists a, b, a, false, infinity.
    simpl. repeat (split; [first [assumption | reflexivity] |]). reflexivity. }
  split; [reflexivity |]. split; [reflexivity |].
  split.
  { intros Hf. destruct sigma_guess; try discriminate Hf.
    simpl in Ha. injection Ha as ->. reflexivity. }
  split.
  { intros Hf. destruct sample_size; try discriminate Hf.
    simpl in Hb. injection Hb as ->. reflexivity. }
  assert (Hsum : ∀ o, getattr o "sigma_guess" = Ok (VFloat a) →
                      getattr o "sample_size" = Ok (VFloat b) →
                      SdPrior.sum_of_squares libm_pow o
                      = (if is_infinity a then Ok (VFloat (abs a * b))
                         else if (a =? 1)%float then Ok (VFloat (1 * b))
                         else if is_infinity (libm_pow a 2%float)
                              then Raise OverflowError
                              else Ok (VFloat (libm_pow a 2%float * b)))).
  { intros o Hsg Hss.
    rewrite (SdPrior_sum_of_squares_attrs libm_pow o _ _ Hsg Hss). simpl.
    rewrite (float_pow2_positive libm_pow a Hpos).
    destruct (is_infinity a); [reflexivity |].
    destruct (a =? 1)%float; [reflexivity |].
    destruct (is_infinity (libm_pow a 2%float)); reflexivity. }
  split; [apply Hsum; reflexivity |].
  intros -> -> Hpow. rewrite Hsum by reflexivity.
  vm_compute in Ha, Hb. injection Ha as <-. injection Hb as <-.
  change (is_infinity 2%float) with false. change (2 =? 1)%float with false.
  cbv iota. rewrite Hpow. reflexivity.
Qed.

Lemma SdPrior_sum_of_squares_double_witness :
  ∃ x, SdPrior.__init__ (VInt 2) (VInt 10) SdPrior.default_initial_value
         SdPrior.default_fixed SdPrior.default_upper_limit = Ok x
       ∧ SdPrior.sum_of_squares pow_by_squaring x = Ok (VFloat 40).
Proof.
  destruct (SdPrior_sum_of_squares_double pow_by_squaring (VInt 2) (VInt 10)
              2 10) as (x & Hx & _ & _ & _ & _ & _ & H40); try reflexivity.
  exists x. split; [exact Hx |]. apply H40; reflexivity.
Defined.

(** ** NormalPrior *)

Lemma NormalPrior_init_default (mu sigma : value) (o : object) :
  NormalPrior.__init__ mu sigma VNone = Ok o
  ↔ ∃ m s : float,
      py_float mu = Ok m ∧ py_float sigma = Ok s
      ∧ o = Object cNormalPrior
              (<["initial_value" := mu]>
                 (<["sigma" := VFloat s]> (<["mu" := VFloat m]> ∅))).
Proof.
  unfold NormalPrior.__init__, setattr, new. simpl. split.
  - intros H.
    apply bind_inv in H as (m & Hm & H). apply bind_inv in H as (s & Hs & H).
    injection H as <-. exists m, s. repeat (split; [assumption |]). reflexivity.
  - intros (m & s & -> & -> & ->). reflexivity.
Qed.

Lemma NormalPrior_init_supplied (mu sigma iv : value) (o : object) :
  is_none iv = false →
  NormalPrior.__init__ mu sigma iv = Ok o
  ↔ ∃ m s i : float,
      py_float mu = Ok m ∧ py_float sigma = Ok s ∧ py_float iv = Ok i
      ∧ o = Object cNormalPrior
              (<["initial_value" := VFloat i]>
                 (<["sigma" := VFloat s]> (<["mu" := VFloat m]> ∅))).
Proof.
  intros Hiv. unfold NormalPrior.__init__, setattr, new. simpl.
  rewrite Hiv. split.
  - intros H.
    apply bind_inv in H as (m & Hm & H). apply bind_inv in H as (s & Hs & H).
    apply bind_inv in H as (i & Hi & H). injection H as <-.
    exists m, s, i. repeat (split; [assumption |]). reflexivity.
  - intros (m & s & i & -> & -> & -> & ->). reflexivity.
Qed.

(** ** Default initial values *)




(** C10 (as stated, refuted): for the int [mu = 2**53 + 1] the defaulted
    [initial_value] and the stored [mu] are not numerically equal. *)
Lemma NormalPrior_default_initial_value_not_equal_mu :
  ∃ o, NormalPrior.__init__ (VInt (2 ^ 53 + 1)) (VFloat 1) VNone = Ok o
       ∧ getattr o "initial_value" = Ok (VInt 9007199254740993)
       ∧ getattr o "mu" = Ok (VFloat 9007199254740992)
       ∧ py_eq (VInt 9007199254740993) (VFloat 9007199254740992)
         = Ok (VBool false).
Proof. eexists. repeat split; vm_compute; reflexivity. Qed.

(** C10 (amended): when [initial_value] is omitted, [NormalPrior] stores
    the [mu] argument itself as [initial_value], without conversion, while
    the stored [mu] is [float(mu)]; a supplied [initial_value] is stored as
    [float(initial_value)].  So for a non-float [mu] only the stored [mu]
    is a float, and the two stored values compare equal exactly when [mu]
    and [float(mu)] do: always for a bool, and for an int such as 2, which
    is stored as the int 2 next to the float 2.0. *)
Theorem NormalPrior_initial_value_coercion :
  (∀ (mu sigma : value) (o : object),
     NormalPrior.__init__ mu sigma VNone = Ok o →
     ∃ m, py_float mu = Ok m
          ∧ getattr o "mu" = Ok (VFloat m)
          ∧ getattr o "initial_value" = Ok mu
          ∧ (iv ← getattr o "initial_value"; w ← getattr o "mu"; py_eq iv w)
            = py_eq mu (VFloat m))
  ∧ (∀ (mu sigma initial_value : value) (o : object),
       is_none initial_value = false →
       NormalPrior.__init__ mu sigma initial_value = Ok o →
       ∃ i, py_float initial_value = Ok i
            ∧ getattr o "initial_value" = Ok (VFloat i))
  ∧ (∀ (b : bool) (sigma : float),
       ∃ o m, NormalPrior.__init__ (VBool b) (VFloat sigma) VNone = Ok o
              ∧ getattr o "mu" = Ok (VFloat m)
              ∧ getattr o "initial_value" = Ok (VBool b)
              ∧ is_float (VBool b) = false
              ∧ py_eq (VBool b) (VFloat m) = Ok (VBool true))
  ∧ (∃ o, NormalPrior.__init__ (VInt 2) (VFloat 1) VNone = Ok o
          ∧ getattr o "mu" = Ok (VFloat 2)
          ∧ getattr o "initial_value" = Ok (VInt 2)
          ∧ is_float (VInt 2) = false
          ∧ py_eq (VInt 2) (VFloat 2) = Ok (VBool true)).
Proof.
  split.
  { intros mu sigma o Ho.
    apply NormalPrior_init_default in Ho as (m & s & Hm & _ & ->).
    exists m. split; [assumption |]. repeat split; reflexivity. }
  split.
  { intros mu sigma iv o Hiv Ho.
    apply (NormalPrior_init_supplied _ _ _ _ Hiv) in Ho
      as (m & s & i & _ & _ & Hi & ->).
    exists i. split; [assumption | reflexivity]. }
  split.
  { intros b sigma. destruct b; eexists; eexists;
      repeat split; vm_compute; reflexivity. }
  eexists. repeat split; vm_compute; reflexivity.
Qed.

Lemma NormalPrior_initial_value_coercion_witness :
  ∃ o, NormalPrior.__init__ (VInt 7) (VInt 3) (VInt 5) = Ok o
       ∧ getattr o "initial_value" = Ok (VFloat 5).
Proof.
  destruct NormalPrior_initial_value_coercion as (_ & Hsupplied & _).
  eexists. split; [vm_compute; reflexivity |].
  destruct (Hsupplied (VInt 7) (VInt 3) (VInt 5) _ eq_refl eq_refl)
    as (i & Hi & Hattr).
  vm_compute in Hi. injection Hi as <-. exact Hattr.
Defined.

(** ** Exact comparison *)

Lemma float_exact_not_nan (x : float) :
  is_nan x = false → float_exact x ≠ XNaN.
Proof.
  intros Hx. unfold float_exact, Prim2SF. rewrite Hx.
  destruct (is_zero x); [discriminate |].
  destruct (is_infinity x); [discriminate |].
  destruct (Z.frexp x) as [r e].
  destruct (shr_fexp prec emax _ _ _) as [mrs e'].
  destruct (shr_m mrs); discriminate.
Qed.

Lemma num_exact_numeric (v : value) :
  is_numeric v = true → is_nan_value v = false →
  ∃ x, num_exact v = Some x ∧ x ≠ XNaN.
Proof.
  destruct v as [| b | n | x | a]; simpl; intros Hnum Hnan;
    try discriminate; eexists; (split; [reflexivity |]);
    try discriminate.
  apply float_exact_not_nan, Hnan.
Qed.

Lemma xcompare_antisym (a b : xnum) :
  xcompare b a = CompOpp <$> xcompare a b.
Proof.
  destruct a as [| s1 | m1 e1], b as [| s2 | m2 e2]; simpl; try reflexivity.
  - destruct s1, s2; reflexivity.
  - destruct s1; reflexivity.
  - destruct s2; reflexivity.
  - rewrite (Z.min_comm e2 e1), Z.compare_antisym. reflexivity.
Qed.

Lemma xcompare_total (a b : xnum) :
  a ≠ XNaN → b ≠ XNaN → ∃ c, xcompare a b = Some c.
Proof.
  destruct a, b; simpl; intros Ha Hb; try contradiction; eexists; reflexivity.
Qed.

Lemma xcompare_refl (a : xnum) : a ≠ XNaN → xcompare a a = Some Eq.
Proof.
  destruct a as [| s | m e]; simpl; intros Ha; try contradiction.
  - destruct s; reflexivity.
  - rewrite Z.compare_refl. reflexivity.
Qed.

Lemma num_compare_numeric (a b : value) :
  is_numeric a = true → is_numeric b = true →
  ∃ x y, num_exact a = Some x ∧ num_exact b = Some y
         ∧ num_compare a b = Ok (xcompare x y).
Proof.
  destruct a, b; simpl; intros Ha Hb; try discriminate;
    eexists; eexists; repeat split.
Qed.

Lemma is_none_true (v : value) : is_none v = true → v = VNone.
Proof. destruct v; simpl; intros; [reflexivity | discriminate ..]. Qed.

(** ** UniformPrior *)

Lemma UniformPrior_init_numeric (lo hi : value) :
  is_numeric lo = true → is_numeric hi = true →
  ∃ c, num_compare hi lo = Ok c
       ∧ UniformPrior.__init__ lo hi
         = Ok match c with
              | Some Lt =>
                  Object cUniformPrior (<["_hi" := lo]> (<["_lo" := hi]> ∅))
              | _ =>
                  Object cUniformPrior (<["_hi" := hi]> (<["_lo" := lo]> ∅))
              end.
Proof.
  intros Hlo Hhi.
  destruct (num_compare_numeric hi lo Hhi Hlo) as (x & y & _ & _ & Hc).
  exists (xcompare x y). split; [assumption |].
  unfold UniformPrior.__init__, py_lt. rewrite Hc. simpl.
  destruct (xcompare x y) as [[| |]|]; reflexivity.
Qed.


(** C4 (as stated, refuted): with a not-a-number bound nothing is swapped
    and [lo <= hi] does not hold after construction. *)
Lemma UniformPrior_nan_breaks_order :
  ∃ o, UniformPrior.__init__ (VFloat nan) (VFloat 1) = Ok o
       ∧ getattr o "_lo" = Ok (VFloat nan)
       ∧ getattr o "_hi" = Ok (VFloat 1)
       ∧ py_le (VFloat nan) (VFloat 1) = Ok (VBool false).
Proof. eexists. repeat split; vm_compute; reflexivity. Qed.

(** C4 (amended): for every pair of numeric inputs (bool, int or float)
    the constructor of [UniformPrior] never raises and stores the two
    inputs, swapped exactly when [hi < lo]; when neither input is
    not-a-number the stored [lo] is [min(lo, hi)], the stored [hi] equals
    [max(lo, hi)], and [lo <= hi] holds for the stored pair.  In
    particular [UniformPrior(lo=5, hi=2)] has [lo = 2] and [hi = 5]. *)
Theorem UniformPrior_init_orders_bounds (lo hi : value) :
  is_numeric lo = true → is_numeric hi = true →
  ∃ lo' hi',
    UniformPrior.__init__ lo hi
    = Ok (Object cUniformPrior (<["_hi" := hi']> (<["_lo" := lo']> ∅)))
    ∧ ((py_lt hi lo = Ok (VBool true) ∧ lo' = hi ∧ hi' = lo)
       ∨ (py_lt hi lo = Ok (VBool false) ∧ lo' = lo ∧ hi' = hi))
    ∧ (is_nan_value lo = false → is_nan_value hi = false →
       py_min lo hi = Ok lo'
       ∧ (∃ m, py_max lo hi = Ok m ∧ py_eq hi' m = Ok (VBool true))
       ∧ py_le lo' hi' = Ok (VBool true))
    ∧ (lo = VInt 5 → hi = VInt 2 → lo' = VInt 2 ∧ hi' = VInt 5).
Proof.
  intros Hlo Hhi.
  destruct (num_compare_numeric hi lo Hhi Hlo) as (x & y & Hx & Hy & Hc).
  destruct (num_compare_numeric lo hi Hlo Hhi) as (y' & x' & Hy' & Hx' & Hc').
  rewrite Hy in Hy'. injection Hy' as <-. rewrite Hx in Hx'. injection Hx' as <-.
  destruct (num_compare_numeric lo lo Hlo Hlo) as (y1 & y2 & Hy1 & Hy2 & Hll).
  rewrite Hy in Hy1, Hy2. injection Hy1 as <-. injection Hy2 as <-.
  destruct (num_compare_numeric hi hi Hhi Hhi) as (x1 & x2 & Hx1 & Hx2 & Hhh).
  rewrite Hx in Hx1, Hx2. injection Hx1 as <-. injection Hx2 as <-.
  assert (Hlo_arr : is_array lo = false) by (destruct lo; try discriminate; reflexivity).
  assert (Hhi_arr : is_array hi = false) by (destruct hi; try discriminate; reflexivity).
  pose proof (xcompare_antisym x y) as Hanti.
  destruct (UniformPrior_init_numeric lo hi Hlo Hhi) as (c & Hc2 & Hinit).
  rewrite Hc in Hc2. injection Hc2 as <-.
  assert (Hswap : xcompare x y = Some Lt ∨ xcompare x y ≠ Some Lt).
  { destruct (xcompare x y) as [[| |]|]; auto; right; discriminate. }
  destruct Hswap as [Hlt | Hnlt].
  - (* hi < lo: the bounds are swapped *)
    exists hi, lo. rewrite Hinit, Hlt.
    split; [reflexivity |]. split.
    { left. unfold py_lt. rewrite Hc, Hlt. repeat split. }
    split.
    + intros Hnl Hnh.
      destruct (num_exact_numeric lo Hlo Hnl) as (y0 & Hy0 & Hyn).
      rewrite Hy in Hy0. injection Hy0 as <-.
      split; [unfold py_min, py_lt; rewrite Hc, Hlt; reflexivity |].
      split.
      * exists lo. unfold py_max, py_gt. rewrite Hc, Hlt. simpl.
        split; [reflexivity |].
        unfold py_eq. rewrite Hlo_arr, Hy. simpl.
        rewrite (xcompare_refl y Hyn). reflexivity.
      * unfold py_le. rewrite Hc, Hlt. reflexivity.
    + intros -> ->. split; reflexivity.
  - (* not hi < lo: the bounds are kept *)
    exists lo, hi.
    assert (Hkeep : match xcompare x y with
                    | Some Lt =>
                        Object cUniformPrior (<["_hi" := lo]> (<["_lo" := hi]> ∅))
                    | _ =>
                        Object cUniformPrior (<["_hi" := hi]> (<["_lo" := lo]> ∅))
                    end
                    = Object cUniformPrior (<["_hi" := hi]> (<["_lo" := lo]> ∅))).
    { destruct (xcompare x y) as [[| |]|]; try reflexivity. contradiction. }
    rewrite Hinit, Hkeep. split; [reflexivity |]. split.
    { right. unfold py_lt. rewrite Hc. simpl.
      destruct (xcompare x y) as [[| |]|]; try (repeat split; fail).
      contradiction. }
    split.
    + intros Hnl Hnh.
      destruct (num_exact_numeric lo Hlo Hnl) as (y0 & Hy0 & Hyn).
      rewrite Hy in Hy0. injection Hy0 as <-.
      destruct (num_exact_numeric hi Hhi Hnh) as (x0 & Hx0 & Hxn).
      rewrite Hx in Hx0. injection Hx0 as <-.
      destruct (xcompare_total x y Hxn Hyn) as (c & Hxy).
      rewrite Hxy in Hanti. simpl in Hanti.
      split.
      { unfold py_min, py_lt. rewrite Hc, Hxy. simpl.
        destruct c; try reflexivity. congruence. }
      split.
      * unfold py_max, py_gt. rewrite Hc, Hxy. simpl.
        destruct c; simpl.
        -- exists lo. split; [reflexivity |].
           unfold py_eq. rewrite Hhi_arr, Hlo_arr, Hx, Hy, Hxy. reflexivity.
        -- congruence.
        -- exists hi. split; [reflexivity |].
           unfold py_eq. rewrite Hhi_arr, Hx. simpl.
           rewrite (xcompare_refl x Hxn). reflexivity.
      * unfold py_le. rewrite Hc', Hanti. simpl.
        destruct c; try reflexivity. congruence.
    + intros -> ->. vm_compute in Hx, Hy. injection Hx as <-. injection Hy as <-.
      exfalso. apply Hnlt. reflexivity.
Qed.

Lemma UniformPrior_init_orders_bounds_witness :
  UniformPrior.__init__ (VInt 5) (VInt 2)
  = Ok (Object cUniformPrior (<["_hi" := VInt 5]> (<["_lo" := VInt 2]> ∅))).
Proof.
  destruct (UniformPrior_init_orders_bounds (VInt 5) (VInt 2) eq_refl eq_refl)
    as (lo' & hi' & Hinit & _ & _ & Hval).
  destruct (Hval eq_refl eq_refl) as [-> ->]. exact Hinit.
Defined.

(** ** What the constructors store *)

Lemma MvnPrior_init_stores (mu Sigma : value) (o : object) :
  MvnPrior.__init__ mu Sigma = Ok o →
  getattr o "_mu" = Ok mu ∧ getattr o "_Sigma" = Ok Sigma.
Proof.
  unfold MvnPrior.__init__. intros H.
  apply bind_inv in H as (smu & _ & H).
  destruct (decide (length smu ≠ 1%nat)) as [?|_]; [discriminate |].
  apply bind_inv in H as (sS & _ & H).
  destruct (decide (length sS ≠ 2%nat)) as [?|_]; [discriminate |].
  apply bind_inv in H as (rows & _ & H). apply bind_inv in H as (cols & _ & H).
  destruct (decide (rows ≠ cols)) as [?|_]; [discriminate |].
  apply bind_inv in H as (rows' & _ & H).
  apply bind_inv in H as (len_mu & _ & H).
  destruct (decide (rows' ≠ len_mu)) as [?|_]; [discriminate |].
  injection H as <-. split; reflexivity.
Qed.





(** ** Acceptance of numeric input *)







(** * Further properties of the classes *)

(** ** Conversion of SdPrior and NormalPrior to external models *)

(** X1: [create_chisq_model] and [boom] of [SdPrior] are interchangeable
    on every object.  On a constructed [SdPrior] they call [ChisqModel]
    with the stored sample size first and the stored guess second; the
    stored [initial_value], [fixed] and [upper_limit] never reach the
    external model. *)
Theorem SdPrior_boom_spec :
  (∀ self : object, SdPrior.create_chisq_model self = SdPrior.boom self)
  ∧ (∀ (sigma_guess sample_size initial_value fixed upper_limit : value)
       (o : object),
       SdPrior.__init__ sigma_guess sample_size initial_value fixed
         upper_limit = Ok o →
       ∃ a b, py_float sigma_guess = Ok a ∧ py_float sample_size = Ok b
              ∧ SdPrior.boom o
                = Ok (BCall "ChisqModel"
                        [BValue (VFloat b); BValue (VFloat a)]))
  ∧ (∀ (self : object) (initial_value fixed upper_limit : value),
       SdPrior.boom
         (setattr (setattr (setattr self "initial_value" initial_value)
                     "fixed" fixed) "upper_limit" upper_limit)
       = SdPrior.boom self).
Proof.
  split; [reflexivity |]. split.
  - intros sg ss iv fx ul o Ho.
    apply SdPrior_init_spec in Ho as (a & b & c & f & d & Ha & Hb & _ & _ & _ & ->).
    exists a, b. repeat split; assumption.
  - intros [c d] iv fx ul. unfold SdPrior.boom, getattr, setattr. simpl.
    rewrite !lookup_insert_ne by discriminate. reflexivity.
Qed.

Lemma SdPrior_boom_spec_witness :
  ∃ o, SdPrior.__init__ (VInt 3) (VFloat 0.5) VNone (VBool true) (VInt 9) = Ok o
       ∧ SdPrior.boom o
         = Ok (BCall "ChisqModel" [BValue (VFloat 0.5); BValue (VFloat 3)]).
Proof.
  destruct SdPrior_boom_spec as (_ & Hboom & _).
  eexists. split; [vm_compute; reflexivity |].
  destruct (Hboom (VInt 3) (VFloat 0.5) VNone (VBool true) (VInt 9) _ eq_refl)
    as (a & b & Ha & Hb & H).
  vm_compute in Ha, Hb. injection Ha as <-. injection Hb as <-. exact H.
Defined.

Lemma NormalPrior_init_inv (mu sigma iv : value) (o : object) :
  NormalPrior.__init__ mu sigma iv = Ok o →
  ∃ (m s : float) (v : value),
    py_float mu = Ok m ∧ py_float sigma = Ok s
    ∧ o = Object cNormalPrior
            (<["initial_value" := v]>
               (<["sigma" := VFloat s]> (<["mu" := VFloat m]> ∅)))
    ∧ (is_none iv = true → v = mu)
    ∧ (is_none iv = false → ∃ i, py_float iv = Ok i ∧ v = VFloat i).
Proof.
  intros Ho. destruct (is_none iv) eqn:Hiv.
  - apply is_none_true in Hiv. subst iv.
    apply NormalPrior_init_default in Ho as (m & s & Hm & Hs & ->).
    exists m, s, mu. repeat split; try assumption. discriminate.
  - apply (NormalPrior_init_supplied _ _ _ _ Hiv) in Ho
      as (m & s & i & Hm & Hs & Hi & ->).
    exists m, s, (VFloat i). repeat split; try assumption; [discriminate |].
    intros _. exists i. split; [assumption | reflexivity].
Qed.

(** X2: on a constructed [NormalPrior], [mean] and [sd] return the stored
    floats [float(mu)] and [float(sigma)], [boom] calls [GaussianModel]
    with exactly what [mean] and [sd] return, in that order, and
    [variance] is the stored [sigma] squared. *)
Theorem NormalPrior_accessors_spec
    (libm_pow : float → float → float) (mu sigma initial_value : value)
    (o : object) :
  NormalPrior.__init__ mu sigma initial_value = Ok o →
  ∃ m s, py_float mu = Ok m ∧ py_float sigma = Ok s
         ∧ NormalPrior.mean o = Ok (VFloat m)
         ∧ NormalPrior.sd o = Ok (VFloat s)
         ∧ NormalPrior.boom o
           = Ok (BCall "GaussianModel" [BValue (VFloat m); BValue (VFloat s)])
         ∧ NormalPrior.variance libm_pow o
           = (q ← float_pow2 libm_pow s; Ok (VFloat q)).
Proof.
  intros Ho.
  apply NormalPrior_init_inv in Ho as (m & s & v & Hm & Hs & -> & _ & _).
  exists m, s. repeat split; assumption.
Qed.

Lemma NormalPrior_accessors_spec_witness :
  ∃ o, NormalPrior.__init__ (VInt 2) (VInt 3) VNone = Ok o
       ∧ NormalPrior.sd o = Ok (VFloat 3)
       ∧ NormalPrior.variance pow_by_squaring o = Ok (VFloat 9).
Proof.
  assert (Ho : NormalPrior.__init__ (VInt 2) (VInt 3) VNone
               = Ok (Object cNormalPrior
                       (<["initial_value" := VInt 2]>
                          (<["sigma" := VFloat 3]> (<["mu" := VFloat 2]> ∅)))))
    by (vm_compute; reflexivity).
  eexists. split; [exact Ho |].
  destruct (NormalPrior_accessors_spec pow_by_squaring _ _ _ _ Ho)
    as (m & s & Hm & Hs & _ & Hsd & _ & Hvar).
  vm_compute in Hs. injection Hs as <-.
  split; [exact Hsd |]. rewrite Hvar. vm_compute. reflexivity.
Defined.

Lemma float_pow2_outcome (libm_pow : float → float → float) (x : float) :
  (∃ q, float_pow2 libm_pow x = Ok q)
  ∨ float_pow2 libm_pow x = Raise OverflowError.
Proof.
  unfold float_pow2.
  destruct (is_nan x); [left; eauto |].
  destruct (is_infinity x); [left; eauto |].
  destruct (x =? 0)%float; [left; eauto |].
  destruct (_ =? 1)%float; [left; eauto |].
  destruct (is_infinity _); [right; reflexivity | left; eauto].
Qed.

(** X3: on constructed objects the derived accessors can fail in one way
    only.  [sum_of_squares] of an [SdPrior] and [variance] of a
    [NormalPrior] either return a float or raise [OverflowError] (when the
    square overflows); they never raise [AttributeError] or [TypeError]. *)
Theorem derived_accessors_outcome (libm_pow : float → float → float) :
  (∀ (sigma_guess sample_size initial_value fixed upper_limit : value)
     (o : object),
     SdPrior.__init__ sigma_guess sample_size initial_value fixed
       upper_limit = Ok o →
     (∃ q, SdPrior.sum_of_squares libm_pow o = Ok (VFloat q))
     ∨ SdPrior.sum_of_squares libm_pow o = Raise OverflowError)
  ∧ (∀ (mu sigma initial_value : value) (o : object),
       NormalPrior.__init__ mu sigma initial_value = Ok o →
       (∃ q, NormalPrior.variance libm_pow o = Ok (VFloat q))
       ∨ NormalPrior.variance libm_pow o = Raise OverflowError).
Proof.
  split.
  - intros sg ss iv fx ul o Ho.
    apply SdPrior_init_spec in Ho as (a & b & c & f & d & _ & _ & _ & _ & _ & ->).
    rewrite (SdPrior_sum_of_squares_attrs libm_pow _ (VFloat a) (VFloat b))
      by reflexivity.
    simpl. destruct (float_pow2_outcome libm_pow a) as [[q Hq] | Hq];
      rewrite Hq; simpl; [left; eauto | right; reflexivity].
  - intros mu sigma iv o Ho.
    apply NormalPrior_init_inv in Ho as (m & s & v & _ & _ & -> & _ & _).
    change (NormalPrior.variance libm_pow _)
      with (q ← float_pow2 libm_pow s; Ok (VFloat q)).
    destruct (float_pow2_outcome libm_pow s) as [[q Hq] | Hq];
      rewrite Hq; simpl; [left; eauto | right; reflexivity].
Qed.

Lemma derived_accessors_outcome_witness :
  ∃ o, SdPrior.__init__ (VFloat 0x1p+600) (VInt 1) VNone (VBool false)
         (VFloat infinity) = Ok o
       ∧ SdPrior.sum_of_squares pow_by_squaring o = Raise OverflowError.
Proof.
  destruct (derived_accessors_outcome pow_by_squaring) as (Hsd & _).
  assert (Ho : SdPrior.__init__ (VFloat 0x1p+600) (VInt 1) VNone (VBool false)
                 (VFloat infinity)
               = Ok (Object cSdPrior
                       (<["upper_limit" := VFloat infinity]>
                          (<["fixed" := VBool false]>
                             (<["initial_value" := VFloat 0x1p+600]>
                                (<["sample_size" := VFloat 1]>
                                   (<["sigma_guess" := VFloat 0x1p+600]> ∅)))))))
    by (vm_compute; reflexivity).
  eexists. split; [exact Ho |].
  destruct (Hsd _ _ _ _ _ _ Ho) as [[q Hq] | Hq].
  - vm_compute in Hq. discriminate Hq.
  - exact Hq.
Defined.

(** ** Shapes and non-arrays in MvnPrior *)

Lemma shape_checks_shape_only (mu Sigma mu' Sigma' : ndarray) :
  shape mu = shape mu' → shape Sigma = shape Sigma' →
  shape_checks mu Sigma = shape_checks mu' Sigma'.
Proof. intros Hmu HS. unfold shape_checks. rewrite Hmu, HS. reflexivity. Qed.

(** X4: the constructor of [MvnPrior] looks at shapes only, never at the
    elements: two pairs of arrays with the same shapes are both accepted
    or are rejected with the same failure.  So every vector of length [n]
    is accepted with every [n] by [n] array, symmetric or not, although
    the failure for a non-square [Sigma] reads "Sigma must be
    symmetric". *)
Theorem MvnPrior_init_depends_on_shapes_only :
  (∀ mu Sigma mu' Sigma' : ndarray,
     shape mu = shape mu' → shape Sigma = shape Sigma' →
     (succeeds (MvnPrior.__init__ (VArray mu) (VArray Sigma))
      ↔ succeeds (MvnPrior.__init__ (VArray mu') (VArray Sigma')))
     ∧ ∀ e, MvnPrior.__init__ (VArray mu) (VArray Sigma) = Raise e
            ↔ MvnPrior.__init__ (VArray mu') (VArray Sigma') = Raise e)
  ∧ (∀ (n : nat) (dmu dS : list float),
       succeeds (MvnPrior.__init__ (VArray (NdArray [n] dmu))
                                   (VArray (NdArray [n; n] dS)))).
Proof.
  split.
  - intros mu Sigma mu' Sigma' Hmu HS.
    rewrite !MvnPrior_init_refines.
    rewrite (shape_checks_shape_only mu Sigma mu' Sigma' Hmu HS).
    destruct (first_violation (shape_checks mu' Sigma')) as [msg|].
    + split; [| reflexivity].
      split; intros [o Ho]; discriminate Ho.
    + split.
      * split; intros _; eexists; reflexivity.
      * intros e. split; discriminate.
  - intros n dmu dS. rewrite MvnPrior_checked_shapes.
    destruct (decide (n ≠ n)) as [Hn|_]; [congruence |]. eexists. reflexivity.
Qed.

Lemma MvnPrior_init_depends_on_shapes_only_witness :
  succeeds (MvnPrior.__init__
              (VArray (NdArray [2%nat] [1; 2]%float))
              (VArray (NdArray [2; 2]%nat [1; 5; 0; 1]%float))).
Proof.
  destruct MvnPrior_init_depends_on_shapes_only as (Hshape & Hsquare).
  destruct (Hshape (zeros [2%nat]) (zeros [2; 2]%nat)
              (NdArray [2%nat] [1; 2]%float)
              (NdArray [2; 2]%nat [1; 5; 0; 1]%float) eq_refl eq_refl)
    as (Hsucc & _).
  apply Hsucc. eexists. vm_compute. reflexivity.
Defined.

(** X5: [MvnPrior] needs arrays.  A [mu] without a [shape] attribute
    ([None], a bool, an int or a float) raises [AttributeError] whatever
    [Sigma] is; a vector [mu] next to such a [Sigma] raises
    [AttributeError] as well; and whenever construction succeeds both
    arguments were arrays. *)
Theorem MvnPrior_init_needs_arrays :
  (∀ mu Sigma : value,
     is_array mu = false →
     MvnPrior.__init__ mu Sigma = Raise (AttributeError "shape"))
  ∧ (∀ (mu : ndarray) (Sigma : value),
       length (shape mu) = 1%nat → is_array Sigma = false →
       MvnPrior.__init__ (VArray mu) Sigma = Raise (AttributeError "shape"))
  ∧ (∀ (mu Sigma : value) (o : object),
       MvnPrior.__init__ mu Sigma = Ok o →
       is_array mu = true ∧ is_array Sigma = true).
Proof.
  split.
  { intros mu Sigma Hmu. destruct mu; try discriminate Hmu; reflexivity. }
  split.
  { intros mu Sigma Hlen HS. unfold MvnPrior.__init__. simpl.
    destruct (decide (length (shape mu) ≠ 1%nat)) as [?|_]; [contradiction |].
    destruct Sigma; try discriminate HS; reflexivity. }
  intros mu Sigma o Ho. unfold MvnPrior.__init__ in Ho.
  apply bind_inv in Ho as (smu & Hmu & Ho).
  destruct (decide (length smu ≠ 1%nat)) as [?|_]; [discriminate |].
  apply bind_inv in Ho as (sS & HS & _).
  split.
  - destruct mu; try discriminate Hmu; reflexivity.
  - destruct Sigma; try discriminate HS; reflexivity.
Qed.

Lemma MvnPrior_init_needs_arrays_witness :
  MvnPrior.__init__ (VFloat 1) (VArray (zeros [1; 1]%nat))
  = Raise (AttributeError "shape")
  ∧ MvnPrior.__init__ (VArray (zeros [1%nat])) (VFloat 1)
    = Raise (AttributeError "shape").
Proof.
  destruct MvnPrior_init_needs_arrays as (Hmu & HSigma & _).
  split; [apply Hmu; reflexivity | apply HSigma; reflexivity].
Defined.

(** X6: on a constructed [MvnPrior], [boom] calls [MvnModel] on the stored
    [mu] wrapped by [Vector] and the stored [Sigma] wrapped by
    [SpdMatrix], the very arrays the accessors [mu] and [Sigma] return;
    the first is a vector of some length [n] and the second an [n] by [n]
    array. *)
Theorem MvnPrior_boom_spec (mu Sigma : value) (o : object) :
  MvnPrior.__init__ mu Sigma = Ok o →
  MvnPrior.boom o
  = Ok (BCall "MvnModel" [BConvert "Vector" mu; BConvert "SpdMatrix" Sigma])
  ∧ MvnPrior.mu o = Ok mu
  ∧ MvnPrior.Sigma o = Ok Sigma
  ∧ ∃ (a b : ndarray) (n : nat),
      mu = VArray a ∧ Sigma = VArray b ∧ shape a = [n] ∧ shape b = [n; n].
Proof.
  intros Ho.
  destruct (MvnPrior_init_stores mu Sigma o Ho) as (Hmu & HSigma).
  split; [unfold MvnPrior.boom; rewrite Hmu, HSigma; reflexivity |].
  split; [exact Hmu |]. split; [exact HSigma |].
  assert (Harr : is_array mu = true ∧ is_array Sigma = true).
  { unfold MvnPrior.__init__ in Ho.
    apply bind_inv in Ho as (smu & Hsmu & Ho).
    destruct (decide (length smu ≠ 1%nat)) as [?|_]; [discriminate |].
    apply bind_inv in Ho as (sS & HsS & _).
    split; [destruct mu | destruct Sigma]; try discriminate; reflexivity. }
  destruct Harr as (Ha & Hb).
  destruct mu as [| | | | a]; try discriminate Ha.
  destruct Sigma as [| | | | b]; try discriminate Hb.
  rewrite MvnPrior_init_refines in Ho.
  destruct (first_violation (shape_checks a b)) eqn:Hv; [discriminate |].
  apply first_violation_None, shape_checks_all in Hv as (n & Hn & HS).
  exists a, b, n. repeat split; assumption.
Qed.

Lemma MvnPrior_boom_spec_witness :
  ∃ o, MvnPrior.__init__ (VArray (zeros [2%nat])) (VArray (zeros [2; 2]%nat))
       = Ok o
       ∧ MvnPrior.boom o
         = Ok (BCall "MvnModel"
                 [BConvert "Vector" (VArray (zeros [2%nat]));
                  BConvert "SpdMatrix" (VArray (zeros [2; 2]%nat))]).
Proof.
  assert (Ho : MvnPrior.__init__ (VArray (zeros [2%nat]))
                 (VArray (zeros [2; 2]%nat))
               = Ok (Object cMvnPrior
                       (<["_Sigma" := VArray (zeros [2; 2]%nat)]>
                          (<["_mu" := VArray (zeros [2%nat])]> ∅))))
    by (vm_compute; reflexivity).
  eexists. split; [exact Ho |].
  apply (MvnPrior_boom_spec _ _ _ Ho).
Defined.

(** ** Order of the bounds of UniformPrior *)

(** X7: the order in which two different numeric bounds are given to
    [UniformPrior] does not matter: when one is strictly below the other,
    [UniformPrior(lo, hi)] and [UniformPrior(hi, lo)] are the same
    object. *)
Theorem UniformPrior_init_symmetric (lo hi : value) :
  is_numeric lo = true → is_numeric hi = true →
  py_lt lo hi = Ok (VBool true) ∨ py_lt hi lo = Ok (VBool true) →
  UniformPrior.__init__ lo hi = UniformPrior.__init__ hi lo.
Proof.
  intros Hlo Hhi Hstrict.
  destruct (num_compare_numeric hi lo Hhi Hlo) as (x & y & Hx & Hy & Hc).
  destruct (num_compare_numeric lo hi Hlo Hhi) as (y' & x' & Hy' & Hx' & Hc').
  rewrite Hy in Hy'. injection Hy' as <-. rewrite Hx in Hx'. injection Hx' as <-.
  destruct (UniformPrior_init_numeric lo hi Hlo Hhi) as (c & Hc2 & ->).
  rewrite Hc in Hc2. injection Hc2 as <-.
  destruct (UniformPrior_init_numeric hi lo Hhi Hlo) as (c & Hc2 & ->).
  rewrite Hc' in Hc2. injection Hc2 as <-.
  pose proof (xcompare_antisym x y) as Hanti.
  unfold py_lt in Hstrict. rewrite Hc, Hc' in Hstrict. simpl in Hstrict.
  destruct (xcompare x y) as [[| |]|]; simpl in Hanti; rewrite Hanti in *;
    simpl in *; try reflexivity;
    destruct Hstrict as [H | H]; discriminate H.
Qed.

Lemma UniformPrior_init_symmetric_witness :
  UniformPrior.__init__ (VFloat 0.5) (VInt (-1))
  = UniformPrior.__init__ (VInt (-1)) (VFloat 0.5).
Proof.
  apply UniformPrior_init_symmetric; try reflexivity.
  right. vm_compute. reflexivity.
Defined.

(** X8: what [UniformPrior] guarantees for every pair of numeric inputs,
    not-a-number included: after construction [hi < lo] is false for the
    stored pair, and [boom] calls [UniformModel] on the stored [lo] and
    [hi], in that order. *)
Theorem UniformPrior_never_reversed (lo hi : value) :
  is_numeric lo = true → is_numeric hi = true →
  ∃ o lo' hi',
    UniformPrior.__init__ lo hi = Ok o
    ∧ getattr o "_lo" = Ok lo' ∧ getattr o "_hi" = Ok hi'
    ∧ py_lt hi' lo' = Ok (VBool false)
    ∧ UniformPrior.boom o
      = Ok (BCall "UniformModel" [BValue lo'; BValue hi']).
Proof.
  intros Hlo Hhi.
  destruct (num_compare_numeric hi lo Hhi Hlo) as (x & y & Hx & Hy & Hc).
  destruct (num_compare_numeric lo hi Hlo Hhi) as (y' & x' & Hy' & Hx' & Hc').
  rewrite Hy in Hy'. injection Hy' as <-. rewrite Hx in Hx'. injection Hx' as <-.
  destruct (UniformPrior_init_numeric lo hi Hlo Hhi) as (c & Hc2 & Hinit).
  rewrite Hc in Hc2. injection Hc2 as <-.
  pose proof (xcompare_antisym x y) as Hanti.
  destruct (xcompare x y) as [[| |]|] eqn:Hxy; simpl in Hanti.
  2: { exists (Object cUniformPrior (<["_hi" := lo]> (<["_lo" := hi]> ∅))),
         hi, lo.
       split; [exact Hinit |]. repeat split.
       unfold py_lt. rewrite Hc', Hanti. reflexivity. }
  all: exists (Object cUniformPrior (<["_hi" := hi]> (<["_lo" := lo]> ∅))),
         lo, hi;
       (split; [exact Hinit |]); repeat split;
       unfold py_lt; rewrite Hc, ?Hxy; reflexivity.
Qed.

Lemma UniformPrior_never_reversed_witness :
  ∃ o lo' hi',
    UniformPrior.__init__ (VFloat nan) (VFloat (-4)) = Ok o
    ∧ getattr o "_lo" = Ok lo' ∧ getattr o "_hi" = Ok hi'
    ∧ py_lt hi' lo' = Ok (VBool false)
    ∧ UniformPrior.boom o
      = Ok (BCall "UniformModel" [BValue lo'; BValue hi']).
Proof. apply UniformPrior_never_reversed; reflexivity. Defined.

(** ** Hyperparameters that are None *)

(** X9: a [None] hyperparameter is rejected with [TypeError] by [SdPrior]
    (for [sigma_guess], and for [sample_size] once [sigma_guess] is
    accepted), by [NormalPrior] (for [mu]) and by [UniformPrior] (for
    either bound next to a scalar), whereas [Ar1CoefficientPrior] accepts
    [mu=None] and then stores [None] as [mu] and as the defaulted
    [initial_value]. *)
Theorem None_hyperparameters :
  (∀ sample_size initial_value fixed upper_limit : value,
     SdPrior.__init__ VNone sample_size initial_value fixed upper_limit
     = Raise TypeError)
  ∧ (∀ (sigma_guess initial_value fixed upper_limit : value) (a : float),
       py_float sigma_guess = Ok a →
       SdPrior.__init__ sigma_guess VNone initial_value fixed upper_limit
       = Raise TypeError)
  ∧ (∀ sigma initial_value : value,
       NormalPrior.__init__ VNone sigma initial_value = Raise TypeError)
  ∧ (∀ v : value,
       is_array v = false →
       UniformPrior.__init__ VNone v = Raise TypeError
       ∧ UniformPrior.__init__ v VNone = Raise TypeError)
  ∧ (∀ sigma force_stationary force_positive : value,
       ∃ o, Ar1CoefficientPrior.__init__
              VNone sigma force_stationary force_positive VNone = Ok o
            ∧ getattr o "mu" = Ok VNone
            ∧ getattr o "initial_value" = Ok VNone).
Proof.
  split; [reflexivity |].
  split.
  { intros sg iv fx ul a Ha. unfold SdPrior.__init__. rewrite Ha. reflexivity. }
  split; [reflexivity |].
  split.
  { intros v Hv. unfold UniformPrior.__init__, py_lt, num_compare.
    split; destruct v; try discriminate Hv; reflexivity. }
  intros sigma fs fp. eexists. split.
  - apply Ar1CoefficientPrior_init_dict.
  - split; reflexivity.
Qed.

Lemma None_hyperparameters_witness :
  SdPrior.__init__ (VInt 1) VNone VNone (VBool false) (VFloat infinity)
  = Raise TypeError
  ∧ UniformPrior.__init__ (VInt 0) VNone = Raise TypeError.
Proof.
  destruct None_hyperparameters as (_ & Hss & _ & Huniform & _).
  split.
  - apply (Hss (VInt 1) VNone (VBool false) (VFloat infinity) 1%float).
    vm_compute. reflexivity.
  - apply (Huniform (VInt 0)). reflexivity.
Defined.

(** ** Rebuilding from stored attributes, and omitted arguments *)

(** X10: constructing again from the attributes of a constructed object.
    For [SdPrior] and [Ar1CoefficientPrior] this gives back the same
    object.  For [NormalPrior] it always succeeds and gives the same
    object except that [initial_value] is now [float()] of the stored one
    (the same object again when the stored [initial_value] was a float). *)
Theorem rebuild_from_attributes :
  (∀ (sigma_guess sample_size initial_value fixed upper_limit : value)
     (o : object),
     SdPrior.__init__ sigma_guess sample_size initial_value fixed
       upper_limit = Ok o →
     ∃ sg ss iv fx ul,
       getattr o "sigma_guess" = Ok sg ∧ getattr o "sample_size" = Ok ss
       ∧ getattr o "initial_value" = Ok iv ∧ getattr o "fixed" = Ok fx
       ∧ getattr o "upper_limit" = Ok ul
       ∧ SdPrior.__init__ sg ss iv fx ul = Ok o)
  ∧ (∀ mu sigma force_stationary force_positive initial_value : value,
       ∃ o m s fs fp iv,
         Ar1CoefficientPrior.__init__
           mu sigma force_stationary force_positive initial_value = Ok o
         ∧ getattr o "mu" = Ok m ∧ getattr o "sigma" = Ok s
         ∧ getattr o "force_stationary" = Ok fs
         ∧ getattr o "force_positive" = Ok fp
         ∧ getattr o "initial_value" = Ok iv
         ∧ Ar1CoefficientPrior.__init__ m s fs fp iv = Ok o)
  ∧ (∀ (mu sigma initial_value : value) (o : object),
       NormalPrior.__init__ mu sigma initial_value = Ok o →
       ∃ m s iv i,
         getattr o "mu" = Ok m ∧ getattr o "sigma" = Ok s
         ∧ getattr o "initial_value" = Ok iv
         ∧ py_float iv = Ok i
         ∧ NormalPrior.__init__ m s iv
           = Ok (setattr o "initial_value" (VFloat i))
         ∧ (is_float iv = true → NormalPrior.__init__ m s iv = Ok o)).
Proof.
  split.
  { intros sg ss iv fx ul o Ho.
    apply SdPrior_init_spec in Ho as (a & b & c & f & d & _ & _ & _ & _ & _ & ->).
    exists (VFloat a), (VFloat b), (VFloat c), (VBool f), (VFloat d).
    repeat split. }
  split.
  { intros mu sigma fs fp iv.
    exists (Object cAr1CoefficientPrior
              (<["initial_value" := if is_none iv then mu else iv]>
                 (<["force_positive" := fp]>
                    (<["force_stationary" := fs]>
                       (<["sigma" := sigma]> (<["mu" := mu]> ∅)))))),
      mu, sigma, fs, fp, (if is_none iv then mu else iv).
    split; [apply Ar1CoefficientPrior_init_dict |].
    repeat (split; [reflexivity |]).
    rewrite Ar1CoefficientPrior_init_dict.
    destruct (is_none iv) eqn:Hiv; [| rewrite Hiv; reflexivity].
    destruct (is_none mu) eqn:Hmu; [| reflexivity].
    apply is_none_true in Hmu. subst mu. reflexivity. }
  intros mu sigma iv o Ho.
  apply NormalPrior_init_inv in Ho as (m & s & v & Hm & Hs & -> & Hdef & Hsup).
  assert (∃ i, py_float v = Ok i ∧ is_none v = false) as (i & Hi & Hnone).
  { destruct (is_none iv) eqn:Hiv.
    - rewrite (Hdef eq_refl). exists m. split; [assumption |].
      destruct mu; try reflexivity. discriminate Hm.
    - destruct (Hsup eq_refl) as (i & Hi & ->). exists i. split; reflexivity. }
  exists (VFloat m), (VFloat s), v, i.
  repeat (split; [reflexivity |]). split; [assumption |].
  assert (Hre : NormalPrior.__init__ (VFloat m) (VFloat s) v
                = Ok (Object cNormalPrior
                        (<["initial_value" := VFloat i]>
                           (<["sigma" := VFloat s]> (<["mu" := VFloat m]> ∅))))).
  { apply (NormalPrior_init_supplied _ _ _ _ Hnone). exists m, s, i.
    repeat split. assumption. }
  split.
  - rewrite Hre. unfold setattr. simpl. rewrite insert_insert_eq. reflexivity.
  - intros Hfloat. rewrite Hre.
    destruct v; try discriminate Hfloat. simpl in Hi. injection Hi as ->.
    reflexivity.
Qed.

Lemma rebuild_from_attributes_witness :
  ∃ o, NormalPrior.__init__ (VInt 2) (VInt 3) VNone = Ok o
       ∧ getattr o "initial_value" = Ok (VInt 2)
       ∧ NormalPrior.__init__ (VFloat 2) (VFloat 3) (VInt 2)
         = Ok (setattr o "initial_value" (VFloat 2)).
Proof.
  destruct rebuild_from_attributes as (_ & _ & Hnormal).
  assert (Ho : NormalPrior.__init__ (VInt 2) (VInt 3) VNone
               = Ok (Object cNormalPrior
                       (<["initial_value" := VInt 2]>
                          (<["sigma" := VFloat 3]> (<["mu" := VFloat 2]> ∅)))))
    by (vm_compute; reflexivity).
  eexists. split; [exact Ho |]. split; [reflexivity |].
  destruct (Hnormal _ _ _ _ Ho) as (m & s & iv & i & Hm & Hs & Hiv & Hi & Hre & _).
  vm_compute in Hm, Hs, Hiv.
  injection Hm as <-. injection Hs as <-. injection Hiv as <-.
  vm_compute in Hi. injection Hi as <-. exact Hre.
Defined.

(** X11: leaving [initial_value] out is the same as passing the main
    hyperparameter for it: [SdPrior(sigma_guess, ...)] is
    [SdPrior(sigma_guess, ..., initial_value=sigma_guess)] and likewise
    [Ar1CoefficientPrior] with [mu], for every input, failures included;
    for [NormalPrior] the two agree when [mu] is a float. *)
Theorem omitted_initial_value_is_hyperparameter :
  (∀ sigma_guess sample_size fixed upper_limit : value,
     SdPrior.__init__ sigma_guess sample_size VNone fixed upper_limit
     = SdPrior.__init__ sigma_guess sample_size sigma_guess fixed upper_limit)
  ∧ (∀ mu sigma force_stationary force_positive : value,
       Ar1CoefficientPrior.__init__
         mu sigma force_stationary force_positive VNone
       = Ar1CoefficientPrior.__init__
           mu sigma force_stationary force_positive mu)
  ∧ (∀ (mu : float) (sigma : value),
       NormalPrior.__init__ (VFloat mu) sigma VNone
       = NormalPrior.__init__ (VFloat mu) sigma (VFloat mu)).
Proof.
  split.
  { intros sg ss fx ul. unfold SdPrior.__init__. simpl.
    destruct (is_none sg); reflexivity. }
  split.
  { intros mu sigma fs fp. rewrite !Ar1CoefficientPrior_init_dict. simpl.
    destruct (is_none mu); reflexivity. }
  intros mu sigma. unfold NormalPrior.__init__. simpl.
  destruct (py_float sigma); reflexivity.
Qed.

(** ** Restoring a state *)

(** X12: [__setstate__] replaces the attributes, it does not merge or
    check them: after [SdPrior.__setstate__(payload)] the methods read the
    payload alone.  A payload without [sigma_guess] makes [sum_of_squares]
    raise [AttributeError], and one without [sample_size] makes [boom]
    raise it, even if the object had the attribute before; with both
    present the two methods work on the payload's values.  So the state of
    a [NormalPrior] can be restored into an [SdPrior], whose
    [sum_of_squares] then raises [AttributeError] for [sigma_guess] and
    whose [boom] raises it for [sample_size]. *)
Theorem setstate_replaces_attributes (libm_pow : float → float → float) :
  (∀ (self : object) (payload : gmap string value),
     payload !! "sigma_guess" = None →
     SdPrior.sum_of_squares libm_pow (SdPrior.__setstate__ self payload)
     = Raise (AttributeError "sigma_guess"))
  ∧ (∀ (self : object) (payload : gmap string value),
       payload !! "sample_size" = None →
       SdPrior.boom (SdPrior.__setstate__ self payload)
       = Raise (AttributeError "sample_size"))
  ∧ (∀ (self : object) (payload : gmap string value) (sg ss : value),
       payload !! "sigma_guess" = Some sg →
       payload !! "sample_size" = Some ss →
       SdPrior.boom (SdPrior.__setstate__ self payload)
       = Ok (BCall "ChisqModel" [BValue ss; BValue sg])
       ∧ SdPrior.sum_of_squares libm_pow (SdPrior.__setstate__ self payload)
         = (sq ← py_pow2 libm_pow sg; py_mul sq ss))
  ∧ (∀ (mu sigma initial_value : value) (o self : object),
       NormalPrior.__init__ mu sigma initial_value = Ok o →
       SdPrior.sum_of_squares libm_pow
         (SdPrior.__setstate__ self (NormalPrior.__getstate__ o))
       = Raise (AttributeError "sigma_guess")
       ∧ SdPrior.boom
           (SdPrior.__setstate__ self (NormalPrior.__getstate__ o))
         = Raise (AttributeError "sample_size")).
Proof.
  split.
  { intros self payload Hsg.
    unfold SdPrior.sum_of_squares, getattr. simpl. rewrite Hsg. reflexivity. }
  split.
  { intros self payload Hss.
    unfold SdPrior.boom, getattr. simpl. rewrite Hss. reflexivity. }
  split.
  { intros self payload sg ss Hsg Hss. split.
    - unfold SdPrior.boom, getattr. simpl. rewrite Hsg, Hss. reflexivity.
    - apply SdPrior_sum_of_squares_attrs; unfold getattr; simpl;
        [rewrite Hsg | rewrite Hss]; reflexivity. }
  intros mu sigma iv o self Ho.
  apply NormalPrior_init_inv in Ho as (m & s & v & _ & _ & -> & _ & _).
  split; reflexivity.
Qed.

Lemma setstate_replaces_attributes_witness :
  ∃ o, NormalPrior.__init__ (VFloat 0) (VFloat 1) VNone = Ok o
       ∧ SdPrior.boom
           (SdPrior.__setstate__ (new cSdPrior) (NormalPrior.__getstate__ o))
         = Raise (AttributeError "sample_size").
Proof.
  destruct (setstate_replaces_attributes pow_by_squaring)
    as (_ & _ & _ & Hcross).
  assert (Ho : NormalPrior.__init__ (VFloat 0) (VFloat 1) VNone
               = Ok (Object cNormalPrior
                       (<["initial_value" := VFloat 0]>
                          (<["sigma" := VFloat 1]> (<["mu" := VFloat 0]> ∅)))))
    by (vm_compute; reflexivity).
  eexists. split; [exact Ho |].
  destruct (Hcross _ _ _ _ (new cSdPrior) Ho) as (_ & Hboom).
  exact Hboom.
Defined.

(** ** The attributes of a constructed object *)

Lemma MvnPrior_init_dict (mu Sigma : value) (o : object) :
  MvnPrior.__init__ mu Sigma = Ok o →
  o = Object cMvnPrior (<["_Sigma" := Sigma]> (<["_mu" := mu]> ∅)).
Proof.
  unfold MvnPrior.__init__. intros H.
  apply bind_inv in H as (smu & _ & H).
  destruct (decide (length smu ≠ 1%nat)) as [?|_]; [discriminate |].
  apply bind_inv in H as (sS & _ & H).
  destruct (decide (length sS ≠ 2%nat)) as [?|_]; [discriminate |].
  apply bind_inv in H as (rows & _ & H). apply bind_inv in H as (cols & _ & H).
  destruct (decide (rows ≠ cols)) as [?|_]; [discriminate |].
  apply bind_inv in H as (rows' & _ & H).
  apply bind_inv in H as (len_mu & _ & H).
  destruct (decide (rows' ≠ len_mu)) as [?|_]; [discriminate |].
  injection H as <-. reflexivity.
Qed.

Lemma UniformPrior_init_dict (lo hi : value) (o : object) :
  UniformPrior.__init__ lo hi = Ok o →
  ∃ lo' hi', o = Object cUniformPrior (<["_hi" := hi']> (<["_lo" := lo']> ∅)).
Proof.
  unfold UniformPrior.__init__. intros H.
  apply bind_inv in H as (c & _ & H). apply bind_inv in H as (swap & _ & H).
  destruct swap; injection H as <-; eexists; eexists; reflexivity.
Qed.

(** X13: the state a constructed object persists.  Every constructor
    returns an instance of its own class whose attributes are exactly the
    ones [__init__] assigns: five for [SdPrior] and for
    [Ar1CoefficientPrior], three for [NormalPrior], and the two private
    ones of [MvnPrior] and of [UniformPrior]; which arguments were
    defaulted makes no difference to the set of attributes. *)
Theorem constructed_attribute_names :
  (∀ (sigma_guess sample_size initial_value fixed upper_limit : value)
     (o : object),
     SdPrior.__init__ sigma_guess sample_size initial_value fixed
       upper_limit = Ok o →
     ob_type o = cSdPrior
     ∧ dom (SdPrior.__getstate__ o)
       = {[ "sigma_guess"; "sample_size"; "initial_value"; "fixed";
            "upper_limit" ]})
  ∧ (∀ (mu sigma initial_value : value) (o : object),
       NormalPrior.__init__ mu sigma initial_value = Ok o →
       ob_type o = cNormalPrior
       ∧ dom (NormalPrior.__getstate__ o)
         = {[ "mu"; "sigma"; "initial_value" ]})
  ∧ (∀ (mu sigma force_stationary force_positive initial_value : value)
       (o : object),
       Ar1CoefficientPrior.__init__
         mu sigma force_stationary force_positive initial_value = Ok o →
       ob_type o = cAr1CoefficientPrior
       ∧ dom (Ar1CoefficientPrior.__getstate__ o)
         = {[ "mu"; "sigma"; "force_stationary"; "force_positive";
              "initial_value" ]})
  ∧ (∀ (mu Sigma : value) (o : object),
       MvnPrior.__init__ mu Sigma = Ok o →
       ob_type o = cMvnPrior ∧ dom (ob_dict o) = {[ "_mu"; "_Sigma" ]})
  ∧ (∀ (lo hi : value) (o : object),
       UniformPrior.__init__ lo hi = Ok o →
       ob_type o = cUniformPrior ∧ dom (ob_dict o) = {[ "_lo"; "_hi" ]}).
Proof.
  split.
  { intros sg ss iv fx ul o Ho.
    apply SdPrior_init_spec in Ho as (a & b & c & f & d & _ & _ & _ & _ & _ & ->).
    split; [reflexivity |]. unfold SdPrior.__getstate__. simpl.
    rewrite !dom_insert_L, dom_empty_L. set_solver. }
  split.
  { intros mu sigma iv o Ho.
    apply NormalPrior_init_inv in Ho as (m & s & v & _ & _ & -> & _ & _).
    split; [reflexivity |]. unfold NormalPrior.__getstate__. simpl.
    rewrite !dom_insert_L, dom_empty_L. set_solver. }
  split.
  { intros mu sigma fs fp iv o Ho.
    rewrite Ar1CoefficientPrior_init_dict in Ho. injection Ho as <-.
    split; [reflexivity |]. unfold Ar1CoefficientPrior.__getstate__. simpl.
    rewrite !dom_insert_L, dom_empty_L. set_solver. }
  split.
  { intros mu Sigma o Ho. apply MvnPrior_init_dict in Ho as ->.
    split; [reflexivity |]. simpl.
    rewrite !dom_insert_L, dom_empty_L. set_solver. }
  intros lo hi o Ho. apply UniformPrior_init_dict in Ho as (lo' & hi' & ->).
  split; [reflexivity |]. simpl.
  rewrite !dom_insert_L, dom_empty_L. set_solver.
Qed.

Lemma constructed_attribute_names_witness :
  ∃ o, UniformPrior.__init__ (VInt 5) (VInt 2) = Ok o
       ∧ dom (ob_dict o) = {[ "_lo"; "_hi" ]}.
Proof.
  destruct constructed_attribute_names as (_ & _ & _ & _ & Huniform).
  assert (Ho : UniformPrior.__init__ (VInt 5) (VInt 2)
               = Ok (Object cUniformPrior
                       (<["_hi" := VInt 5]> (<["_lo" := VInt 2]> ∅))))
    by (vm_compute; reflexivity).
  eexists. split; [exact Ho |]. apply (Huniform _ _ _ Ho).
Defined.
